(** * Smart Expense Tracker (project2.py): an embedding and its properties

    The program is a Streamlit front end over two SQLite tables.  The
    embedding keeps

    - amounts as IEEE binary64 values ([float]), the type of Python's
      [float] and of SQLite's REAL;
    - data frames as lists of rows, boolean-mask selection as [filter];
    - the two tables as explicit state that every store helper threads;
    - the calls into Streamlit as the list of widgets a menu branch emits;
    - Python's [/] as a fallible operation (ZeroDivisionError).

    Functions of pandas that the program calls on user text
    ([pd.Period], [pd.to_datetime]) are not part of the program; the
    branches that call them take them as parameters. *)

From Stdlib Require Import ZArith List String Ascii Bool Lia Floats.
From Stdlib Require Import DecimalString Permutation Sorted.
Import ListNotations.

Local Open Scope string_scope.

(* ================================================================== *)
(** * Python's format specifications [.0f] and [,.0f] *)
(* ================================================================== *)

Module PyFormat.

(** The quotient [num / den] rounded to the nearest integer, a tie going to
    the even neighbour: how the fixed-point presentation type rounds the
    exact binary value. *)
Definition round_half_even (num den : Z) : Z :=
  let q := (num / den)%Z in
  match (2 * (num mod den) ?= den)%Z with
  | Lt => q
  | Gt => (q + 1)%Z
  | Eq => if Z.even q then q else (q + 1)%Z
  end.

(** The magnitude [m * 2^e] of a finite binary64 value, to zero decimals. *)
Definition nearest_integer (m : positive) (e : Z) : Z :=
  if (0 <=? e)%Z then (Z.pos m * 2 ^ e)%Z
  else round_half_even (Z.pos m) (2 ^ (- e)).

Definition digits (n : Z) : string :=
  NilZero.string_of_uint (N.to_uint (Z.to_N n)).

(** The [,] option: a comma before every group of three digits, counted
    from the right.  [k] digits of the current group are already out. *)
Fixpoint commas_rev (k : nat) (ds : list ascii) : list ascii :=
  match ds with
  | [] => []
  | d :: ds' =>
      match k with
      | 3%nat => ","%char :: d :: commas_rev 1 ds'
      | _ => d :: commas_rev (S k) ds'
      end
  end.

Definition group_thousands (s : string) : string :=
  string_of_list_ascii (rev (commas_rev 0 (rev (list_ascii_of_string s)))).

Definition sign (s : bool) : string := if s then "-" else "".

(** [format(x, ".0f")] when [comma] is [false], [format(x, ",.0f")]
    otherwise. *)
Definition format_f0 (comma : bool) (x : float) : string :=
  match Prim2SF x with
  | S754_nan => "nan"
  | S754_infinity s => sign s ++ "inf"
  | S754_zero s => sign s ++ "0"
  | S754_finite s m e =>
      let ds := digits (nearest_integer m e) in
      sign s ++ (if comma then group_thousands ds else ds)
  end.

(** [n] is an integer nearest to [m * 2^e]: twice the distance is at most
    one unit, both sides scaled by the denominator [2^(-e)] when [e < 0]. *)
Definition is_nearest_integer (n : Z) (m : positive) (e : Z) : Prop :=
  (2 * Z.abs (n * 2 ^ Z.max 0 (- e) - Z.pos m * 2 ^ Z.max 0 e)
   <= 2 ^ Z.max 0 (- e))%Z.

(** [text] stands inside [msg]. *)
Definition cites (msg text : string) : Prop :=
  exists before after, msg = before ++ text ++ after.

End PyFormat.

(* ================================================================== *)
(** * Glyphs of the user interface, byte for byte as the source has them *)
(* ================================================================== *)

Module Glyph.

Definition nb_hyphen : string := "â€‘".
Definition rupee : string := "â‚¹".
Definition money_bag : string := "ğŸ’°".
Definition green_circle : string := "ğŸŸ¢".
Definition red_circle : string := "ğŸ”´".
Definition target : string := "ğŸ¯".
Definition bar_chart : string := "ğŸ“Š".
Definition siren : string := "ğŸš¨".
Definition warning_sign : string := "âš ï¸".
Definition info_sign : string := "â„¹ï¸".
Definition check_mark : string := "âœ…".
Definition receipt : string := "ğŸ§¾".
Definition dollar : string := "ğŸ’µ".
Definition money_wings : string := "ğŸ’¸".
Definition scissors : string := "âœ‚ï¸".
Definition brain : string := "ğŸ§ ".
Definition dna : string := "ğŸ§¬".
Definition coin : string := "ğŸª™".

End Glyph.

(* ================================================================== *)
(** * The record store: tables [expenses] and [budget] of tracker.db *)
(* ================================================================== *)

Module Store.

(** A row of [expenses], under the column names [load_expenses] selects.
    A NaN [Amount] stands for a cell that holds no number. *)
Record expense_row : Type := mk_expense_row {
  ID : Z;
  Date : string;
  Category : string;
  Amount : float;
  Description : string
}.

(** A row of [budget]; [Month] is the primary key. *)
Record budget_row : Type := mk_budget_row {
  Month : string;
  Budget : float
}.

(** The database file.  [sqlite_sequence] is the largest row id that
    AUTOINCREMENT has handed out for [expenses]. *)
Record database : Type := mk_database {
  expenses : list expense_row;
  budget : list budget_row;
  sqlite_sequence : Z
}.

(** What [get_conn] creates when tracker.db does not exist yet: both
    tables, empty (CREATE TABLE IF NOT EXISTS leaves existing ones alone). *)
Definition empty_db : database :=
  {| expenses := []; budget := []; sqlite_sequence := 0 |}.

(** ** ORDER BY *)

Fixpoint insert_by {A : Type} (le : A -> A -> bool) (x : A) (l : list A)
  : list A :=
  match l with
  | [] => [x]
  | y :: l' => if le x y then x :: l else y :: insert_by le x l'
  end.

Definition order_by {A : Type} (le : A -> A -> bool) (l : list A) : list A :=
  fold_right (insert_by le) [] l.

(** [ORDER BY date ASC, id ASC]: TEXT compares byte-wise. *)
Definition date_id_le (r1 r2 : expense_row) : bool :=
  match String.compare (Date r1) (Date r2) with
  | Lt => true
  | Gt => false
  | Eq => (ID r1 <=? ID r2)%Z
  end.

(** [ORDER BY month ASC]. *)
Definition month_le (b1 b2 : budget_row) : bool :=
  match String.compare (Month b1) (Month b2) with
  | Gt => false
  | _ => true
  end.

(** ** The helpers *)

Definition load_expenses (db : database) : list expense_row :=
  order_by date_id_le (expenses db).

Definition load_budget (db : database) : list budget_row :=
  order_by month_le (budget db).

(** A calendar date, as [st.date_input] returns it, and its [str]. *)
Record date : Type := mk_date { year : Z; month : Z; day : Z }.

Definition zero_pad (width : nat) (n : Z) : string :=
  let ds := PyFormat.digits n in
  string_of_list_ascii (repeat "0"%char (width - String.length ds)) ++ ds.

Definition str_date (d : date) : string :=
  zero_pad 4 (year d) ++ "-" ++ zero_pad 2 (month d) ++ "-"
  ++ zero_pad 2 (day d).

Definition max_rowid (rows : list expense_row) : Z :=
  fold_right (fun r acc => Z.max (ID r) acc) 0%Z rows.

(** What a REAL column hands back for a number put into it.  A value that
    is a whole number is kept as an integer and read as a real again, which
    loses the sign of a negative zero; every other value comes back as it
    went in (NaN, bound as NULL, comes back as no number). *)
Definition sqlite_real (x : float) : float :=
  if (x =? 0)%float then 0%float else x.

(** [INSERT INTO expenses(date, category, amount, description)]: the id is
    one more than the largest id ever used. *)
Definition save_expense (date_value : date) (category : string)
    (amount : float) (description : string) (db : database) : database :=
  let rowid := (Z.max (max_rowid (expenses db)) (sqlite_sequence db) + 1)%Z in
  {| expenses := expenses db ++
       [mk_expense_row rowid (str_date date_value) category
          (sqlite_real amount) description];
     budget := budget db;
     sqlite_sequence := rowid |}.

(** [DELETE FROM expenses WHERE id = ?]. *)
Definition delete_expense_by_id (row_id : Z) (db : database) : database :=
  {| expenses := filter (fun r => negb (ID r =? row_id)%Z) (expenses db);
     budget := budget db;
     sqlite_sequence := sqlite_sequence db |}.

(** [INSERT OR REPLACE INTO budget(month, budget)]: a row that conflicts on
    the primary key is deleted, then the new row is inserted. *)
Definition save_budget_row (month : string) (budget_amount : float)
    (db : database) : database :=
  {| expenses := expenses db;
     budget := filter (fun b => negb (Month b =? month)) (budget db) ++
       [mk_budget_row month (sqlite_real budget_amount)];
     sqlite_sequence := sqlite_sequence db |}.

(** [DELETE FROM expenses; DELETE FROM budget]. *)
Definition clear_all_data (db : database) : database :=
  {| expenses := []; budget := []; sqlite_sequence := sqlite_sequence db |}.

(** The rows of a month, and the rows with an amount above zero. *)
Definition for_month (month : string) (b : budget_row) : bool :=
  (Month b =? month)%string.

Definition positive_amount (r : expense_row) : Prop :=
  (0 <? Amount r)%float = true.

(** ** The states the helpers can produce *)

Inductive store_step : database -> database -> Prop :=
| step_save_expense db d c a descr :
    store_step db (save_expense d c a descr db)
| step_delete_expense db row_id :
    store_step db (delete_expense_by_id row_id db)
| step_save_budget db m a :
    store_step db (save_budget_row m a db)
| step_clear db :
    store_step db (clear_all_data db).

Inductive reachable : database -> Prop :=
| reach_empty : reachable empty_db
| reach_step db db' : reachable db -> store_step db db' -> reachable db'.

(** The two primary keys. *)
Record keyed (db : database) : Prop := mk_keyed {
  keyed_ids : NoDup (map ID (expenses db));
  keyed_ids_bound : Forall (fun r => (ID r <= sqlite_sequence db)%Z)
                      (expenses db);
  keyed_months : NoDup (map Month (budget db))
}.

End Store.

(* ================================================================== *)
(** * Aggregation and feedback: the helpers of project2.py *)
(* ================================================================== *)

Module Feedback.

Import Store.
Local Open Scope float_scope.

(** ** Errors *)

Inductive exn : Type := ZeroDivisionError.

Inductive result (A : Type) : Type :=
| Ok (a : A)
| Raise (e : exn).

Arguments Ok {A} a.
Arguments Raise {A} e.

Definition bind {A B : Type} (c : result A) (k : A -> result B) : result B :=
  match c with
  | Ok a => k a
  | Raise e => Raise e
  end.

Notation "x <- c ;; k" := (bind c (fun x => k))
  (at level 61, c at next level, right associativity).

(** Python's [x / y] on floats. *)
Definition truediv (x y : float) : result float :=
  if y =? 0 then Raise ZeroDivisionError else Ok (x / y).

(** [(part / total) * 100 if total > 0 else 0], the expression behind every
    percentage of the program. *)
Definition percent_of (part total : float) : result float :=
  if 0 <? total then q <- truediv part total ;; Ok (q * 100) else Ok 0.

(** The number that expression stands for when nothing is raised. *)
Definition percentage (part total : float) : float :=
  if 0 <? total then part / total * 100 else 0.

(** ** Data frames *)

Definition DataFrame : Type := list expense_row.

Definition fillna0 (a : float) : float := if is_nan a then 0 else a.

(** [pd.to_numeric(df["Amount"], errors="coerce").fillna(0)]. *)
Definition to_numeric_fillna0 (df : DataFrame) : DataFrame :=
  map (fun r => mk_expense_row (ID r) (Date r) (Category r)
                  (fillna0 (Amount r)) (Description r)) df.

(** The order in which numpy adds a column of binary64 values.  Eight
    running sums take the terms in turn, eight at a time, as long as eight
    terms are left; the eight sums are added in pairs, and the terms left
    over are added one by one.  Fewer than eight terms are added one by
    one. *)
Fixpoint block_loop (r0 r1 r2 r3 r4 r5 r6 r7 : float) (a : list float)
    {struct a} : float :=
  match a with
  | x0 :: x1 :: x2 :: x3 :: x4 :: x5 :: x6 :: x7 :: a' =>
      block_loop (r0 + x0) (r1 + x1) (r2 + x2) (r3 + x3)
        (r4 + x4) (r5 + x5) (r6 + x6) (r7 + x7) a'
  | _ =>
      fold_left add a (((r0 + r1) + (r2 + r3)) + ((r4 + r5) + (r6 + r7)))
  end.

Definition block_sum (a : list float) : float :=
  match a with
  | x0 :: x1 :: x2 :: x3 :: x4 :: x5 :: x6 :: x7 :: a' =>
      block_loop x0 x1 x2 x3 x4 x5 x6 x7 a'
  | _ => fold_left add a (-0)
  end.

(** A column of more than 128 terms is cut in two near the middle, at a
    multiple of eight, and the sums of the two parts are added.  [fuel]
    bounds the depth of the cuts; the length of the column is enough. *)
Fixpoint pairwise_sum (fuel : nat) (a : list float) : float :=
  match fuel with
  | O => block_sum a
  | S fuel' =>
      let n := List.length a in
      if (n <=? 128)%nat then block_sum a
      else
        let n2 := (n / 2 - (n / 2) mod 8)%nat in
        pairwise_sum fuel' (firstn n2 a) + pairwise_sum fuel' (skipn n2 a)
  end.

(** [Series.sum()]: missing values count as zero, and the column is added
    onto the unit of addition in numpy's order.  (The one input on which
    the sign of the start values would show, a column of negative zeros
    only, is none a REAL column hands back.) *)
Definition Series_sum (s : list float) : float :=
  0 + pairwise_sum (List.length s) (map fillna0 s).

Definition is_income (r : expense_row) : bool :=
  (Category r =? "Income")%string.

(** [df[df["Category"] == "Income"]] and [df[df["Category"] != "Income"]]. *)
Definition income_rows (df : DataFrame) : DataFrame := filter is_income df.

Definition expense_rows (df : DataFrame) : DataFrame :=
  filter (fun r => negb (is_income r)) df.

Definition income_total (df : DataFrame) : float :=
  Series_sum (map Amount (income_rows df)).

Definition expense_total (df : DataFrame) : float :=
  Series_sum (map Amount (expense_rows df)).

(** ** Health tags *)

Definition HEALTHY_CATEGORIES : list string :=
  ["Groceries"; "Healthcare"; "Medicine"; "Gym"; "Fitness"; "Sports"]%string.

Definition UNHEALTHY_CATEGORIES : list string :=
  ["Fast Food"; "Junk Food"; "Alcohol"; "Smoking"; "Sweets"]%string.

Definition CATEGORY_DISPLAY : list string :=
  ["Food"; "Groceries"; "Fast Food"; "Healthcare"; "Medicine"; "Gym";
   "Fitness"; "Sports"; "Travel"; "Shopping"; "Bills"; "Others"]%string.

Definition mem (s : string) (l : list string) : bool :=
  existsb (String.eqb s) l.

Definition get_health_tag (cat : string) : string :=
  if mem cat HEALTHY_CATEGORIES then "healthy"
  else if mem cat UNHEALTHY_CATEGORIES then "unhealthy"
  else if (cat =? "Food")%string then "neutral"
  else "neutral".

(** ** generate_health_feedback *)

Definition no_expenses_msg : string :=
  "No expenses recorded this month, so no lifestyle feedback yet.".

Definition cautionary_msg (unhealthy_pct : float) : string :=
  "You spent about " ++ PyFormat.format_f0 false unhealthy_pct
  ++ "% of your expenses on unhealthy items. "
  ++ "Consider reducing fast food, alcohol, or junk purchases and think about "
  ++ "taking or reviewing a health insurance plan.".

Definition encouraging_msg (healthy_pct : float) : string :=
  "Great job! Around " ++ PyFormat.format_f0 false healthy_pct
  ++ "% of your expenses are on healthy areas "
  ++ "like groceries, healthcare, or fitness. Your spending pattern looks "
  ++ "supportive of a healthy lifestyle.".

Definition mixed_msg : string :=
  "Your spending is mixed between healthy and other categories. Try to shift "
  ++ "more expenses towards healthcare, groceries, and fitness, and reduce "
  ++ "unhealthy categories over time.".

Definition tagged (tag : string) (exp_df : DataFrame) : DataFrame :=
  filter (fun r => (get_health_tag (Category r) =? tag)%string) exp_df.

Definition total_spent (month_df : DataFrame) : float :=
  Series_sum (map Amount (expense_rows month_df)).

Definition healthy_spent (month_df : DataFrame) : float :=
  Series_sum (map Amount (tagged "healthy" (expense_rows month_df))).

Definition unhealthy_spent (month_df : DataFrame) : float :=
  Series_sum (map Amount (tagged "unhealthy" (expense_rows month_df))).

Definition healthy_pct (month_df : DataFrame) : float :=
  percentage (healthy_spent month_df) (total_spent month_df).

Definition unhealthy_pct (month_df : DataFrame) : float :=
  percentage (unhealthy_spent month_df) (total_spent month_df).

Definition generate_health_feedback (month_df : DataFrame) : result string :=
  match expense_rows month_df with
  | [] => Ok no_expenses_msg
  | _ :: _ =>
      healthy_pct <-
        percent_of (healthy_spent month_df) (total_spent month_df) ;;
      unhealthy_pct <-
        percent_of (unhealthy_spent month_df) (total_spent month_df) ;;
      if 50 <=? unhealthy_pct then Ok (cautionary_msg unhealthy_pct)
      else if 50 <=? healthy_pct then Ok (encouraging_msg healthy_pct)
      else Ok mixed_msg
  end.

(** ** generate_income_feedback *)

Definition no_activity_msg : string :=
  "No income or expenses recorded for this month.".

Definition no_income_msg : string :=
  "You recorded expenses but no income this month. Make sure to log your "
  ++ "income or review your earning sources.".

Definition no_spending_msg : string :=
  "You recorded income but no expenses this month. Log your real"
  ++ Glyph.nb_hyphen ++ "life spending to get accurate tracking.".

Definition overspend_msg (savings : float) : string :=
  "Your expenses exceeded your income by " ++ Glyph.rupee ++ " "
  ++ PyFormat.format_f0 true (abs savings) ++ ". "
  ++ "Try to cut down non" ++ Glyph.nb_hyphen
  ++ "essential spending or find ways to increase income.".

Definition low_savings_msg (savings_pct : float) : string :=
  "You saved only about " ++ PyFormat.format_f0 false savings_pct
  ++ "% of your income. "
  ++ "Aim to save at least 20% of your monthly income if possible.".

Definition good_savings_msg (savings_pct : float) : string :=
  "Good job! You saved about " ++ PyFormat.format_f0 false savings_pct
  ++ "% of your income this month. "
  ++ "Keep building this habit and consider investing or building an "
  ++ "emergency fund.".

Definition savings (month_df : DataFrame) : float :=
  income_total month_df - expense_total month_df.

Definition savings_pct (month_df : DataFrame) : float :=
  percentage (savings month_df) (income_total month_df).

Definition generate_income_feedback (month_df : DataFrame) : result string :=
  let income := income_total month_df in
  let expense := expense_total month_df in
  if (income =? 0) && (expense =? 0) then Ok no_activity_msg
  else if (income =? 0) && (0 <? expense) then Ok no_income_msg
  else if (0 <? income) && (expense =? 0) then Ok no_spending_msg
  else
    let savings := income - expense in
    savings_pct <- percent_of savings income ;;
    if savings <? 0 then Ok (overspend_msg savings)
    else if savings_pct <? 10 then Ok (low_savings_msg savings_pct)
    else Ok (good_savings_msg savings_pct).

End Feedback.

(* ================================================================== *)
(** * The menu branches *)
(* ================================================================== *)

Module App.

Import Store Feedback.
Local Open Scope float_scope.

(** A call into Streamlit that shows something.  Input widgets are the
    parameters of the branch that reads them. *)
Inductive widget : Type :=
| st_subheader (body : string)
| st_metric (label value : string)
| st_divider
| st_markdown (body : string)
| st_write (body : string)
| st_error (body : string)
| st_warning (body : string)
| st_info (body : string)
| st_success (body : string)
| st_dataframe (rows : DataFrame)
| st_pie (rows : DataFrame).

(** [st.selectbox(label, options)]: the option the user picked, the first
    one when nothing was picked. *)
Definition selectbox {A : Type} (first : A) (options : list A) (choice : nat)
  : A :=
  nth choice options first.

Definition money (x : float) : string :=
  Glyph.rupee ++ " " ++ PyFormat.format_f0 true x.

Definition percent (x : float) : string := PyFormat.format_f0 false x.

(** ** Dashboard *)

Definition exceeded_msg (remaining : float) : string :=
  Glyph.siren ++ " **BUDGET EXCEEDED!** Overspent by " ++ money (abs remaining).

Definition warning_msg (budget_pct remaining : float) : string :=
  Glyph.warning_sign ++ " **" ++ percent budget_pct
  ++ "% budget used!** Only " ++ money remaining ++ " left".

Definition half_used_msg (remaining : float) : string :=
  Glyph.info_sign ++ " **Half budget used.** " ++ money remaining
  ++ " remaining".

Definition within_budget_msg : string :=
  Glyph.check_mark ++ " **Well within budget!** Keep it up!".

(** The band of the budget block: one call, the first test that holds. *)
Definition budget_alert (budget_pct remaining : float) : widget :=
  if 100 <=? budget_pct then st_error (exceeded_msg remaining)
  else if 80 <=? budget_pct then st_warning (warning_msg budget_pct remaining)
  else if 50 <=? budget_pct then st_info (half_used_msg remaining)
  else st_success within_budget_msg.

(** The block under [# BUDGET LOGIC]. *)
Definition budget_logic (expense budget : float) : result (list widget) :=
  if 0 <? budget then
    budget_pct <- percent_of expense budget ;;
    let remaining := budget - expense in
    Ok [st_metric (Glyph.bar_chart ++ " Budget Used")
          (percent budget_pct ++ "%");
        st_metric (Glyph.money_bag ++ " Remaining") (money remaining);
        budget_alert budget_pct remaining]
  else Ok [].

(** [budget_df[budget_df["Month"] == today_month]], then the first row's
    budget, [0.0] when there is none. *)
Definition budget_of_month (budget_df : list budget_row) (today_month : string)
  : float :=
  match filter (fun b => (Month b =? today_month)%string) budget_df with
  | [] => 0
  | b :: _ => Budget b
  end.

Definition tail (n : nat) (df : DataFrame) : DataFrame :=
  skipn (List.length df - n) df.

Definition category_chart (df : DataFrame) (empty_note : string) : widget :=
  match expense_rows df with
  | [] => st_info empty_note
  | _ :: _ => st_pie (expense_rows df)
  end.

(** The four metrics of the overview and the rule under them. *)
Definition overview (df : DataFrame) (budget : float) : list widget :=
  let income := income_total df in
  let expense := expense_total df in
  let balance := income - expense in
  [st_subheader (Glyph.bar_chart ++ " Overview");
   st_metric (Glyph.money_bag ++ " Balance") (money balance);
   st_metric (Glyph.green_circle ++ " Total Income") (money income);
   st_metric (Glyph.red_circle ++ " Total Expense") (money expense);
   st_metric (Glyph.target ++ " Budget") (money budget);
   st_divider].

(** The two columns at the bottom of the page. *)
Definition transactions_panel (df : DataFrame) : list widget :=
  [st_subheader (Glyph.receipt ++ " Recent Transactions");
   st_dataframe (tail 10 df);
   st_subheader (Glyph.bar_chart ++ " Spending by Category");
   category_chart df "No expense data yet."].

(** [today_month] is [str(pd.Timestamp.today().to_period("M"))]. *)
Definition Dashboard (today_month : string) (db : database)
  : result (list widget) :=
  let budget_df := load_budget db in
  match load_expenses db with
  | [] =>
      Ok [st_subheader (Glyph.bar_chart ++ " Overview");
          st_info "No data available. Start by adding income and expenses."]
  | _ :: _ =>
      let df := to_numeric_fillna0 (load_expenses db) in
      let expense := expense_total df in
      let budget := budget_of_month budget_df today_month in
      block <- budget_logic expense budget ;;
      Ok (overview df budget ++ block ++ transactions_panel df)%list
  end.

(** ** Add Income, Add Expense *)

Definition Add_Income (income_date : date) (income_amount : float)
    (source : string) (clicked : bool) (db : database)
  : list widget * database :=
  let page := [st_subheader (Glyph.dollar ++ " Add Income")] in
  if clicked then
    if income_amount <=? 0 then
      ((page ++ [st_warning "Income amount should be greater than 0."])%list,
       db)
    else
      ((page ++ [st_success
                   (Glyph.check_mark ++ " Income added successfully!")])%list,
       save_expense income_date "Income" income_amount source db)
  else (page, db).

Definition Add_Expense (exp_date : date) (category_choice : nat)
    (amount : float) (description : string) (clicked : bool) (db : database)
  : list widget * database :=
  let page := [st_subheader (Glyph.money_wings ++ " Add Expense")] in
  let category := selectbox "Food"%string CATEGORY_DISPLAY category_choice in
  if clicked then
    if amount <=? 0 then
      ((page ++ [st_warning "Expense amount should be greater than 0."])%list,
       db)
    else
      ((page ++ [st_success
                   (Glyph.check_mark ++ " Expense added successfully!")])%list,
       save_expense exp_date category amount description db)
  else (page, db).

(** ** Delete Expense *)

(** [expense_df["RowID"].tolist()]: the options of the select box. *)
Definition row_ids (db : database) : list Z :=
  map ID (expense_rows (load_expenses db)).

(** After the delete, [st.rerun()] runs the page again on the database
    handed back here. *)
Definition Delete_Expense (choice : nat) (clicked : bool) (db : database)
  : list widget * database :=
  let page := [st_subheader (Glyph.scissors ++ " Delete an Expense")] in
  let expense_df := expense_rows (load_expenses db) in
  match expense_df with
  | [] =>
      ((page ++ [st_info "No expense records available to delete."])%list, db)
  | first :: _ =>
      let shown := (page ++ [st_write "Select a row to delete:";
                             st_dataframe expense_df])%list in
      let selected_row_id := selectbox (ID first) (row_ids db) choice in
      if clicked then
        ((shown ++ [st_success
            (Glyph.check_mark ++ " Expense with RowID "
             ++ PyFormat.sign (selected_row_id <? 0)%Z
             ++ PyFormat.digits (Z.abs selected_row_id)
             ++ " deleted successfully!")])%list,
         delete_expense_by_id selected_row_id db)
      else (shown, db)
  end.

(** ** Set Budget *)

Section SetBudget.

(** [str(pd.Period(month_input, freq="M"))], the month key pandas reads from
    the text; [None] when the [try] block raises. *)
Variable Period_M : string -> option string.

Definition Set_Budget (month_input : string) (budget_amount : float)
    (clicked : bool) (db : database) : list widget * database :=
  let page := [st_subheader (Glyph.target ++ " Set Monthly Budget")] in
  if clicked then
    match Period_M month_input with
    | None =>
        ((page ++ [st_error
                     "Please enter month in valid format like 2026-02."])%list,
         db)
    | Some month =>
        ((page ++ [st_success
                     (Glyph.check_mark ++ " Budget for " ++ month
                      ++ " saved successfully!")])%list,
         save_budget_row month budget_amount db)
    end
  else (page, db).

(** One user action on a page that writes.  A number input with
    [min_value=0.0] hands over a value that is at least zero. *)
Inductive ui_step : database -> database -> Prop :=
| ui_set_budget db month_input budget_amount clicked :
    (0 <=? budget_amount) = true ->
    ui_step db (snd (Set_Budget month_input budget_amount clicked db))
| ui_add_income db d income_amount source clicked :
    (0 <=? income_amount) = true ->
    ui_step db (snd (Add_Income d income_amount source clicked db))
| ui_add_expense db d category_choice amount description clicked :
    (0 <=? amount) = true ->
    ui_step db
      (snd (Add_Expense d category_choice amount description clicked db))
| ui_delete_expense db choice clicked :
    ui_step db (snd (Delete_Expense choice clicked db))
| ui_clear_all_data db :
    ui_step db (clear_all_data db).

Inductive ui_reachable : database -> Prop :=
| ui_start : ui_reachable empty_db
| ui_next db db' : ui_reachable db -> ui_step db db' -> ui_reachable db'.

End SetBudget.

(** ** Statistics, Smart Insights & Feedback *)

Section MonthViews.

(** [pd.to_datetime(column, errors="coerce")]: a timestamp for each cell,
    [None] (NaT) for a cell pandas cannot read as a date; and
    [str(ts.to_period("M"))]. *)
Variable Timestamp : Type.
Variable to_datetime : list string -> list (option Timestamp).
Variable to_period_M : Timestamp -> string.

(** A row once the page has rewritten its columns. *)
Record dated_row : Type := mk_dated_row {
  row : expense_row;
  when : Timestamp;
  month_key : string
}.

Definition keep_dated (cell : expense_row * option Timestamp)
  : list dated_row :=
  match snd cell with
  | None => []
  | Some ts =>
      let r := fst cell in
      [mk_dated_row
         (mk_expense_row (ID r) (Date r) (Category r) (fillna0 (Amount r))
            (Description r))
         ts (to_period_M ts)]
  end.

(** The four statements that parse the dates, drop the rows without one,
    clean the amounts and add the month column. *)
Definition dated_frame (df : DataFrame) : list dated_row :=
  flat_map keep_dated (combine df (to_datetime (map Date df))).

Definition desc (a b : string) : bool :=
  match String.compare a b with
  | Lt => false
  | _ => true
  end.

(** [sorted(df["Month"].unique(), reverse=True)]. *)
Definition month_options (df : list dated_row) : list string :=
  order_by desc (nodup string_dec (map month_key df)).

(** [df[df["Month"] == selected_month]]. *)
Definition month_df (df : list dated_row) (selected_month : string)
  : list dated_row :=
  filter (fun d => (month_key d =? selected_month)%string) df.

(** The month subset of the stored transactions, for any month key. *)
Definition month_group (db : database) (m : string) : list dated_row :=
  month_df (dated_frame (load_expenses db)) m.

Definition Statistics (choice : nat) (db : database) : list widget :=
  let page := [st_subheader (Glyph.bar_chart ++ " Expense Statistics")] in
  match load_expenses db with
  | [] => (page ++ [st_info "No data available yet."])%list
  | _ :: _ =>
      let df := dated_frame (load_expenses db) in
      match df with
      | [] => (page ++ [st_info "No valid dated records to show."])%list
      | _ :: _ =>
          let options := month_options df in
          let selected_month :=
            selectbox (hd ""%string options) options choice in
          match month_df df selected_month with
          | [] => (page ++ [st_info "No records for this month."])%list
          | _ :: _ =>
              let rows := map row (month_df df selected_month) in
              (page ++
               [st_metric (Glyph.dollar ++ " Income")
                  (money (income_total rows));
                st_metric (Glyph.money_wings ++ " Expense")
                  (money (expense_total rows));
                category_chart rows "No expenses in this month."])%list
          end
      end
  end.

Definition Smart_Insights (choice : nat) (db : database)
  : result (list widget) :=
  let page := [st_subheader (Glyph.brain ++ " Smart Insights & Feedback")] in
  match load_expenses db with
  | [] =>
      Ok (page ++
          [st_info ("No data available yet. Please add some income and "
                    ++ "expenses to see insights.")])%list
  | _ :: _ =>
      let df := dated_frame (load_expenses db) in
      match df with
      | [] => Ok (page ++ [st_info "No valid dated records to show."])%list
      | _ :: _ =>
          let options := month_options df in
          let selected_month :=
            selectbox (hd ""%string options) options choice in
          match month_df df selected_month with
          | [] => Ok (page ++ [st_info "No records for this month."])%list
          | _ :: _ =>
              let rows := map row (month_df df selected_month) in
              let income := income_total rows in
              let expense := expense_total rows in
              let balance := income - expense in
              health_fb <- generate_health_feedback rows ;;
              income_fb <- generate_income_feedback rows ;;
              Ok (page ++
                  [st_metric (Glyph.dollar ++ " Income") (money income);
                   st_metric (Glyph.money_wings ++ " Expense") (money expense);
                   st_metric (Glyph.money_bag ++ " Balance") (money balance);
                   st_markdown "---";
                   st_markdown ("### " ++ Glyph.dna
                                ++ " Lifestyle & Health Feedback");
                   st_info health_fb;
                   st_markdown ("### " ++ Glyph.coin
                                ++ " Income & Savings Feedback");
                   st_success income_fb] ++
                  match expense_rows rows with
                  | [] =>
                      [st_info ("No expenses in this month, so no spending "
                                ++ "breakdown to show.")]
                  | _ :: _ =>
                      [st_markdown ("### " ++ Glyph.bar_chart
                                    ++ " Where your money went");
                       st_pie (expense_rows rows)]
                  end)%list
          end
      end
  end.

End MonthViews.

Arguments row {Timestamp} d.
Arguments when {Timestamp} d.
Arguments month_key {Timestamp} d.
Arguments dated_frame {Timestamp} to_datetime to_period_M df.
Arguments month_options {Timestamp} df.
Arguments month_df {Timestamp} df selected_month.
Arguments month_group {Timestamp} to_datetime to_period_M db m.
Arguments Statistics {Timestamp} to_datetime to_period_M choice db.
Arguments Smart_Insights {Timestamp} to_datetime to_period_M choice db.

End App.

(* ================================================================== *)
(** * Orders and histories of the store *)
(* ================================================================== *)

Module Notions.

Import Store.

(** [ORDER BY date ASC, id ASC] read as a relation: an earlier date text,
    or the same date text and an id that is not larger. *)
Definition listed_before (r1 r2 : expense_row) : Prop :=
  String.compare (Date r1) (Date r2) = Lt
  \/ (Date r1 = Date r2 /\ (ID r1 <= ID r2)%Z).

(** [ORDER BY month ASC] read as a relation. *)
Definition month_before (b1 b2 : budget_row) : Prop :=
  String.compare (Month b1) (Month b2) = Lt \/ Month b1 = Month b2.

(** A later state of the file: any number of calls of the four helpers
    that write. *)
Inductive later : database -> database -> Prop :=
| later_now db : later db db
| later_call db db' db'' : later db db' -> store_step db' db'' -> later db db''.

(** The row [save_expense] inserts. *)
Definition inserted_row (date_value : date) (category : string)
    (amount : float) (description : string) (db : database) : expense_row :=
  mk_expense_row
    (Z.max (max_rowid (expenses db)) (sqlite_sequence db) + 1)
    (str_date date_value) category (sqlite_real amount) description.

(** What the pages write: an income, or an expense of a listed category,
    dated by [str] of a calendar date. *)
Definition entered_by_page (r : expense_row) : Prop :=
  (Category r = "Income" \/ In (Category r) Feedback.CATEGORY_DISPLAY)
  /\ exists d, Date r = str_date d.

(** The row of the dated frame that a stored row becomes when its date
    cell is read as [ts]. *)
Definition dated_as {Timestamp : Type} (to_period_M : Timestamp -> string)
    (r : expense_row) (ts : Timestamp) : App.dated_row Timestamp :=
  App.mk_dated_row Timestamp
    (mk_expense_row (ID r) (Date r) (Category r)
       (Feedback.fillna0 (Amount r)) (Description r))
    ts (to_period_M ts).

(** Newest month first, no month twice. *)
Definition newest_first (a b : string) : Prop := String.compare b a = Lt.

End Notions.

(* ================================================================== *)
(** * Readers of user text, for running the parameterised branches *)
(* ================================================================== *)

Module Readers.

Import Store.

Definition is_digit (c : ascii) : bool :=
  (48 <=? nat_of_ascii c)%nat && (nat_of_ascii c <=? 57)%nat.

Fixpoint number (cs : list ascii) (acc : Z) : option Z :=
  match cs with
  | [] => Some acc
  | c :: cs' =>
      if is_digit c
      then number cs' (10 * acc + Z.of_nat (nat_of_ascii c - 48))%Z
      else None
  end.

(** Modelled from the spec: the strict year-month format check of the
    budget-set operation, four digits, a hyphen and a month from 01 to 12.
    (The program hands the text to [pd.Period], which is not part of it.) *)
Definition year_month (s : string) : option string :=
  match list_ascii_of_string s with
  | [y1; y2; y3; y4; "-"%char; m1; m2] =>
      match number [y1; y2; y3; y4] 0, number [m1; m2] 0 with
      | Some _, Some m => if (1 <=? m)%Z && (m <=? 12)%Z then Some s else None
      | _, _ => None
      end
  | _ => None
  end.


(** A reader of the dates the program itself writes, [str] of a calendar
    date; every other text is NaT. *)
Definition iso_date (s : string) : option date :=
  match list_ascii_of_string s with
  | [y1; y2; y3; y4; "-"%char; m1; m2; "-"%char; d1; d2] =>
      match number [y1; y2; y3; y4] 0, number [m1; m2] 0, number [d1; d2] 0
      with
      | Some y, Some m, Some d =>
          if (1 <=? m)%Z && (m <=? 12)%Z && (1 <=? d)%Z && (d <=? 31)%Z
          then Some (mk_date y m d) else None
      | _, _, _ => None
      end
  | _ => None
  end.

Definition iso_dates (column : list string) : list (option date) :=
  map iso_date column.

Definition period_M (d : date) : string :=
  zero_pad 4 (year d) ++ "-" ++ zero_pad 2 (month d).

End Readers.

(* ================================================================== *)
(** * The aggregation engine in the words of the specification *)
(* ================================================================== *)

Module Spec.

Import Store.
Local Open Scope float_scope.



(** CategoryHealthTag: the two fixed membership sets; every category on
    neither is neutral. *)
Inductive health_tag : Type := healthy | unhealthy | neutral.

Definition healthy_set : list string :=
  ["Groceries"; "Healthcare"; "Medicine"; "Gym"; "Fitness"; "Sports"]%string.

Definition unhealthy_set : list string :=
  ["Fast Food"; "Junk Food"; "Alcohol"; "Smoking"; "Sweets"]%string.

Definition tag_of (category : string) : health_tag :=
  if existsb (String.eqb category) healthy_set then healthy
  else if existsb (String.eqb category) unhealthy_set then unhealthy
  else neutral.

Definition has_tag (tag : health_tag) (t : expense_row) : bool :=
  match tag, tag_of (Category t) with
  | healthy, healthy | unhealthy, unhealthy | neutral, neutral => true
  | _, _ => false
  end.

(** The expense subset of a month: category other than "Income". *)
Definition expense_subset (month_transactions : list expense_row)
  : list expense_row :=
  filter (fun t => negb (Category t =? "Income")%string) month_transactions.

(** The share of a tag: the sum of the amounts of the expenses with the
    tag, over the sum of the amounts of all expenses, times 100; zero when
    that total is not above zero. *)
Definition share (tag : health_tag) (month_transactions : list expense_row)
  : float :=
  let total_expense :=
    Feedback.Series_sum (map Amount (expense_subset month_transactions)) in
  let tagged_expense :=
    Feedback.Series_sum
      (map Amount (filter (has_tag tag) (expense_subset month_transactions)))
  in
  if 0 <? total_expense then tagged_expense / total_expense * 100 else 0.

(** The bands of the budget report. *)
Inductive band : Type := exceeded | warning | half_used | on_track.

(** First match wins: at least 100, at least 80, at least 50, else. *)
Definition band_of (percentage_used : float) : band :=
  if 100 <=? percentage_used then exceeded
  else if 80 <=? percentage_used then warning
  else if 50 <=? percentage_used then half_used
  else on_track.

(** The alert that goes with a band. *)
Definition alert_of (b : band) (percentage_used remaining : float)
  : App.widget :=
  match b with
  | exceeded => App.st_error (App.exceeded_msg remaining)
  | warning => App.st_warning (App.warning_msg percentage_used remaining)
  | half_used => App.st_info (App.half_used_msg remaining)
  | on_track => App.st_success App.within_budget_msg
  end.

End Spec.

(* ================================================================== *)
(** * Stores and months the statements below are run on *)
(* ================================================================== *)

Module Scenarios.

Import Store Feedback App.
Local Open Scope float_scope.

(** The month of the boundary test: income 1000, expenses 900. *)
Definition ten_percent_month : DataFrame :=
  [mk_expense_row 1 "2026-02-01" "Income" 1000 "salary";
   mk_expense_row 2 "2026-02-03" "Food" 900 "canteen"].

(** Budgets for three months. *)
Definition two_months : database :=
  save_budget_row "2026-03" 900
    (save_budget_row "2026-02" 4000 (save_budget_row "2026-01" 3000 empty_db)).

(** A store with transactions of February 2026 and a budget for January
    only. *)
Definition no_budget_yet : database :=
  save_budget_row "2026-01" 3000
    (save_expense (mk_date 2026 2 3) "Food" 900 "canteen"
       (save_expense (mk_date 2026 2 1) "Income" 1000 "salary" empty_db)).

(** A store with a budget for February 2026. *)
Definition february_budget : database :=
  save_budget_row "2026-02" 4000 empty_db.

(** An income and an expense entered through the two pages. *)
Definition entered : database :=
  snd (Add_Expense (mk_date 2026 2 3) 0 900 "canteen" true
         (snd (Add_Income (mk_date 2026 2 1) 1000 "salary" true empty_db))).

(** A salary, two expenses and a refund booked as income. *)
Definition four_rows : database :=
  save_expense (mk_date 2026 2 9) "Income" 120 "refund"
    (save_expense (mk_date 2026 2 5) "Travel" 60 "bus"
       (save_expense (mk_date 2026 2 3) "Food" 900 "canteen"
          (save_expense (mk_date 2026 2 1) "Income" 1000 "salary" empty_db))).

(** One row written by the app and one whose date cell was edited by
    hand. *)
Definition edited_by_hand : database :=
  {| expenses := [mk_expense_row 1 "2026-02-01" "Food" 300 "canteen";
                  mk_expense_row 2 "someday" "Travel" 60 "bus"];
     budget := [];
     sqlite_sequence := 2 |}.

(** Ten tips of a tenth each, and eight gym visits of a tenth each with
    one journey of eight tenths: the first column adds to 1 and the second
    to 1.6 in the order numpy adds, to less from first to last. *)
Definition ten_tips : DataFrame :=
  map (fun i => mk_expense_row i "2026-02-01" "Income" (1 / 10) "tip")
    [1; 2; 3; 4; 5; 6; 7; 8; 9; 10]%Z.

Definition gym_and_journey : DataFrame :=
  (map (fun i => mk_expense_row i "2026-02-01" "Gym" (1 / 10) "visit")
     [1; 2; 3; 4; 5; 6; 7; 8]%Z
   ++ [mk_expense_row 9 "2026-02-02" "Travel" (8 / 10) "journey"])%list.

(** Transactions of February and of March 2026. *)
Definition two_month_store : database :=
  save_expense (mk_date 2026 3 2) "Bills" 40 "power"
    (save_expense (mk_date 2026 2 3) "Food" 900 "canteen"
       (save_expense (mk_date 2026 2 1) "Income" 1000 "salary" empty_db)).

End Scenarios.

(* ================================================================== *)
(** * Comparisons of binary64 values against zero *)
(* ================================================================== *)

Module FloatFacts.

Local Open Scope float_scope.

Ltac by_sign_cases x :=
  rewrite ?ltb_spec, ?leb_spec, ?eqb_spec in *;
  change (Prim2SF 0) with (S754_zero false) in *;
  unfold SFltb, SFleb, SFeqb, SFcompare in *;
  destruct (Prim2SF x) as [[|]|[|]| |[|] ? ?]; simpl in *; congruence.

Lemma gt0_neq0 (x : float) : (0 <? x) = true -> (x =? 0) = false.
Proof. intros H. by_sign_cases x. Qed.

Lemma gt0_not_le0 (x : float) : (0 <? x) = true -> (x <=? 0) = false.
Proof. intros H. by_sign_cases x. Qed.

Lemma ge0_not_lt0 (x : float) : (0 <=? x) = true -> (x <? 0) = false.
Proof. intros H. by_sign_cases x. Qed.

Lemma eq0_not_gt0 (x : float) : (x =? 0) = true -> (0 <? x) = false.
Proof. intros H. by_sign_cases x. Qed.

Lemma le0_not_gt0 (x : float) : (x <=? 0) = true -> (0 <? x) = false.
Proof. intros H. by_sign_cases x. Qed.

Lemma ge0_not_le0_gt0 (x : float) :
  (0 <=? x) = true -> (x <=? 0) = false -> (0 <? x) = true.
Proof. intros H1 H2. by_sign_cases x. Qed.

Lemma gt0_ge0 (x : float) : (0 <? x) = true -> (0 <=? x) = true.
Proof. intros H. by_sign_cases x. Qed.

(** [x == x] fails exactly on NaN, and NaN compares false with everything. *)
Lemma gt0_not_nan (x : float) : (0 <? x) = true -> is_nan x = false.
Proof.
  intros H. unfold is_nan. rewrite eqb_spec, ltb_spec in *.
  change (Prim2SF 0) with (S754_zero false) in *.
  unfold SFltb, SFeqb, SFcompare in *.
  destruct (Prim2SF x) as [[|]|[|]| |[|] m e]; simpl in *; try congruence;
    rewrite Z.compare_refl, Pos.compare_cont_refl; reflexivity.
Qed.

(** The two zeros are the only values equal to zero. *)
Lemma eq0_is_zero (x : float) : (x =? 0) = true -> x = 0 \/ x = -0.
Proof.
  intros H. rewrite eqb_spec in H.
  change (Prim2SF 0) with (S754_zero false) in H.
  pose proof (SF2Prim_Prim2SF x) as Hx.
  unfold SFeqb, SFcompare in H.
  destruct (Prim2SF x) as [[|]|[|]| |[|] m e]; simpl in H; try discriminate;
    rewrite <- Hx; [right|left]; reflexivity.
Qed.

(** A REAL column changes the negative zero and nothing else. *)
Lemma sqlite_real_same (x : float) :
  x <> -0 -> Store.sqlite_real x = x.
Proof.
  intros Hx. unfold Store.sqlite_real.
  destruct (x =? 0) eqn:E; [|reflexivity].
  destruct (eq0_is_zero x E) as [->| ->]; [reflexivity|contradiction].
Qed.

Lemma sqlite_real_positive (x : float) :
  (0 <? x) = true -> Store.sqlite_real x = x.
Proof.
  intros Hx. unfold Store.sqlite_real. rewrite (gt0_neq0 x Hx). reflexivity.
Qed.

End FloatFacts.

(* ================================================================== *)
(** * Rounding of the [.0f] presentation *)
(* ================================================================== *)

Module PyFormatFacts.

Import PyFormat.

Example format_tie_down : format_f0 false 62.5%float = "62".
Proof. vm_compute. reflexivity. Qed.

Example format_tie_up : format_f0 false 63.5%float = "64".
Proof. vm_compute. reflexivity. Qed.

Example format_grouped : format_f0 true 1234567.25%float = "1,234,567".
Proof. vm_compute. reflexivity. Qed.

Example format_small_negative : format_f0 false (-0.25)%float = "-0".
Proof. vm_compute. reflexivity. Qed.

Lemma round_half_even_nearest (num den : Z) :
  (0 < den)%Z ->
  (2 * Z.abs (round_half_even num den * den - num) <= den)%Z.
Proof.
  intros Hden. unfold round_half_even.
  pose proof (Z.div_mod num den ltac:(lia)) as Hdm.
  pose proof (Z.mod_pos_bound num den Hden) as Hb.
  set (q := (num / den)%Z) in *. set (r := (num mod den)%Z) in *.
  destruct (Z.compare_spec (2 * r) den) as [He|Hl|Hg];
    [destruct (Z.even q)| | ]; nia.
Qed.

Lemma nearest_integer_is_nearest (m : positive) (e : Z) :
  is_nearest_integer (nearest_integer m e) m e.
Proof.
  unfold is_nearest_integer, nearest_integer.
  destruct (Z.leb_spec 0 e) as [Hpos|Hneg].
  - rewrite (Z.max_l 0 (- e)) by lia. rewrite (Z.max_r 0 e) by lia.
    change (2 ^ 0)%Z with 1%Z. lia.
  - rewrite (Z.max_r 0 (- e)) by lia. rewrite (Z.max_l 0 e) by lia.
    change (2 ^ 0)%Z with 1%Z. rewrite Z.mul_1_r.
    apply round_half_even_nearest. apply Z.pow_pos_nonneg; lia.
Qed.

Lemma append_empty (s : string) : s ++ "" = s.
Proof. induction s as [|c s IH]; simpl; [|rewrite IH]; reflexivity. Qed.

(** What [.0f] prints for a finite non-zero value. *)
Lemma format_f0_finite (x : float) (s : bool) (m : positive) (e : Z) :
  Prim2SF x = S754_finite s m e ->
  format_f0 false x = sign s ++ digits (nearest_integer m e).
Proof. intros H. unfold format_f0. rewrite H. reflexivity. Qed.

End PyFormatFacts.

(* ================================================================== *)
(** * The store keeps its primary keys *)
(* ================================================================== *)

Module StoreFacts.

Import Store.

Example str_date_pads :
  str_date (mk_date 2026 2 7) = "2026-02-07".
Proof. reflexivity. Qed.

Section OrderBy.

Context {A : Type} (le : A -> A -> bool).

Lemma insert_by_perm (x : A) (l : list A) :
  Permutation (insert_by le x l) (x :: l).
Proof.
  induction l as [|y l IH]; simpl.
  - apply Permutation_refl.
  - destruct (le x y).
    + apply Permutation_refl.
    + eapply Permutation_trans; [apply perm_skip, IH | apply perm_swap].
Qed.

Lemma order_by_perm (l : list A) : Permutation (order_by le l) l.
Proof.
  induction l as [|x l IH]; simpl.
  - apply perm_nil.
  - eapply Permutation_trans; [apply insert_by_perm | apply perm_skip, IH].
Qed.

Lemma order_by_In (x : A) (l : list A) : In x (order_by le l) <-> In x l.
Proof.
  split; apply Permutation_in;
    [apply order_by_perm | apply Permutation_sym, order_by_perm].
Qed.

End OrderBy.

Lemma load_expenses_In (db : database) (r : expense_row) :
  In r (load_expenses db) <-> In r (expenses db).
Proof. apply order_by_In. Qed.

Lemma load_expenses_ids (db : database) :
  NoDup (map ID (expenses db)) -> NoDup (map ID (load_expenses db)).
Proof.
  apply Permutation_NoDup, Permutation_map, Permutation_sym, order_by_perm.
Qed.

Lemma max_rowid_bound (rows : list expense_row) (r : expense_row) :
  In r rows -> (ID r <= max_rowid rows)%Z.
Proof.
  induction rows as [|x rows IH]; simpl; [tauto|].
  intros [->|Hin]; [lia|]. specialize (IH Hin). lia.
Qed.

Lemma filter_map_NoDup {A K : Type} (key : A -> K) (p : A -> bool)
    (l : list A) :
  NoDup (map key l) -> NoDup (map key (filter p l)).
Proof.
  induction l as [|x l IH]; simpl; intros Hnd; [constructor|].
  inversion Hnd as [|? ? Hnotin Hnd']; subst.
  destruct (p x); simpl; [constructor|]; auto.
  intros Hin. apply Hnotin. apply in_map_iff in Hin as (y & Hy & Hiny).
  apply in_map_iff. exists y. split; [exact Hy|].
  apply filter_In in Hiny. tauto.
Qed.

(** A key that the filter threw out of every row is fresh at the end. *)
Lemma upsert_NoDup (month : string) (b : budget_row) (l : list budget_row) :
  Month b = month ->
  NoDup (map Month l) ->
  NoDup (map Month
           (filter (fun x => negb (Month x =? month)%string) l ++ [b])).
Proof.
  intros Hb Hnd. rewrite map_app. simpl.
  apply Permutation_NoDup with
    (l := Month b
          :: map Month (filter (fun x => negb (Month x =? month)%string) l)).
  - apply Permutation_cons_append.
  - constructor.
    + intros Hin. apply in_map_iff in Hin as (y & Hy & Hiny).
      apply filter_In in Hiny as [_ Hneq].
      apply negb_true_iff, String.eqb_neq in Hneq. congruence.
    + apply filter_map_NoDup, Hnd.
Qed.

Lemma keyed_empty : keyed empty_db.
Proof. split; simpl; constructor. Qed.

Lemma keyed_step (db db' : database) :
  keyed db -> store_step db db' -> keyed db'.
Proof.
  intros [Hids Hbound Hmonths] Hstep.
  destruct Hstep as [db d c a descr|db row_id|db m a|db]; split; simpl;
    auto using filter_map_NoDup, upsert_NoDup; try constructor.
  - (* the new id is above every id of the table *)
    rewrite map_app. simpl.
    eapply Permutation_NoDup; [apply Permutation_cons_append|].
    constructor; [|exact Hids].
    intros Hin. apply in_map_iff in Hin as (y & Hy & Hiny).
    apply max_rowid_bound in Hiny. lia.
  - apply Forall_app. split.
    + apply Forall_forall. intros r Hin.
      apply max_rowid_bound in Hin. lia.
    + constructor; [simpl; lia | constructor].
  - apply Forall_forall. intros r Hin. apply filter_In in Hin as [Hin _].
    rewrite Forall_forall in Hbound. auto.
Qed.

(** Every state the helpers produce from a fresh file has both primary
    keys. *)
Lemma reachable_keyed (db : database) : reachable db -> keyed db.
Proof.
  induction 1 as [|db db' _ IH Hstep];
    [apply keyed_empty | exact (keyed_step db db' IH Hstep)].
Qed.

End StoreFacts.

(* ================================================================== *)
(** * The order of a sum *)
(* ================================================================== *)

Module SumFacts.

Import Feedback.
Local Open Scope float_scope.

Lemma cut_is_inside (n : nat) :
  (128 < n)%nat ->
  (1 <= n / 2 - (n / 2) mod 8 < n)%nat.
Proof.
  intros Hn.
  assert (H64 : (64 <= n / 2)%nat)
    by (apply Nat.div_le_lower_bound; lia).
  assert (Hmod : ((n / 2) mod 8 < 8)%nat)
    by (apply Nat.mod_upper_bound; lia).
  assert (Hhalf : (n / 2 < n)%nat) by (apply Nat.div_lt; lia).
  lia.
Qed.

(** The depth of the cuts never reaches a bound that is at least the
    length of the column: any such bound gives the same sum. *)
Lemma pairwise_sum_fuel (fuel fuel' : nat) (a : list float) :
  (List.length a <= fuel)%nat -> (List.length a <= fuel')%nat ->
  pairwise_sum fuel a = pairwise_sum fuel' a.
Proof.
  revert fuel' a. induction fuel as [|fuel IH]; intros fuel' a Hf Hf'.
  - destruct a; [|simpl in Hf; lia]. destruct fuel'; reflexivity.
  - destruct fuel' as [|fuel'].
    + destruct a; [|simpl in Hf'; lia]. reflexivity.
    + cbn [pairwise_sum]. cbv zeta.
      destruct (Nat.leb_spec (List.length a) 128) as [Hle|Hgt];
        [reflexivity|].
      destruct (cut_is_inside _ Hgt) as [Hlo Hhi].
      set (n2 := (List.length a / 2 - (List.length a / 2) mod 8)%nat) in *.
      rewrite (IH fuel' (firstn n2 a)), (IH fuel' (skipn n2 a));
        try reflexivity;
        rewrite ?length_firstn, ?length_skipn; lia.
Qed.

(** Up to seven terms are added from the first to the last. *)
Example six_terms (a b c d e f : float) :
  Series_sum [a; b; c; d; e; f]
  = 0 + ((((((-0 + fillna0 a) + fillna0 b) + fillna0 c) + fillna0 d)
          + fillna0 e) + fillna0 f).
Proof. reflexivity. Qed.

End SumFacts.

(* ================================================================== *)
(** * Totals *)
(* ================================================================== *)

Module TotalsFacts.

Import Store Feedback App.
Local Open Scope float_scope.



Example overdrawn_balance :
  let df := [mk_expense_row 1 "2026-02-01" "Income" 1000 "pay";
             mk_expense_row 2 "2026-02-02" "Travel" 1200 "trip"] in
  income_total df - expense_total df = (-200)
  /\ nth 1 (overview df 0) st_divider
     = st_metric (Glyph.money_bag ++ " Balance") (Glyph.rupee ++ " -200").
Proof. split; vm_compute; reflexivity. Qed.

Example ten_tips_add_to_one : income_total Scenarios.ten_tips = 1.
Proof. vm_compute. reflexivity. Qed.


End TotalsFacts.

(* ================================================================== *)
(** * Budgets *)
(* ================================================================== *)

Module BudgetFacts.

Import Store StoreFacts Scenarios.

Lemma filter_perm {A : Type} (p : A -> bool) (l l' : list A) :
  Permutation l l' -> Permutation (filter p l) (filter p l').
Proof.
  induction 1 as [|x l l' _ IH|x y l|l l' l'' _ IH1 _ IH2]; simpl.
  - apply perm_nil.
  - destruct (p x); [apply perm_skip|]; exact IH.
  - destruct (p x), (p y); try apply Permutation_refl. apply perm_swap.
  - eapply Permutation_trans; eassumption.
Qed.

Lemma filter_out_then_in (month : string) (l : list budget_row) :
  filter (for_month month)
    (filter (fun b => negb (Month b =? month)%string) l) = [].
Proof.
  induction l as [|b l IH]; simpl; [reflexivity|].
  destruct (Month b =? month)%string eqn:E; simpl; [exact IH|].
  unfold for_month at 1. rewrite E. exact IH.
Qed.

(** After a save, the table holds the saved row and no other for its
    month. *)
Lemma save_budget_row_entry (month : string) (a : float) (db : database) :
  filter (for_month month) (budget (save_budget_row month a db))
  = [mk_budget_row month (sqlite_real a)].
Proof.
  simpl. rewrite filter_app, filter_out_then_in. simpl.
  unfold for_month. simpl. rewrite String.eqb_refl. reflexivity.
Qed.

Lemma load_budget_entry (month : string) (b : budget_row) (db : database) :
  filter (for_month month) (budget db) = [b] ->
  filter (for_month month) (load_budget db) = [b].
Proof.
  intros H. apply Permutation_length_1_inv. rewrite <- H.
  apply filter_perm, Permutation_sym, order_by_perm.
Qed.

Lemma load_budget_months (db : database) :
  NoDup (map Month (budget db)) -> NoDup (map Month (load_budget db)).
Proof.
  apply Permutation_NoDup, Permutation_map, Permutation_sym, order_by_perm.
Qed.

(** C8.  From any state the helpers can reach, two budget saves for one
    month leave exactly one entry for that month in the budget table, with
    the amount of the second save as the REAL column hands it back (the
    amount itself, unless it is the negative zero, which comes back as
    zero); and every reachable state, this one and the one after the two
    saves, has at most one entry per month. *)
Theorem budget_upsert_one_entry_per_month
    (db : database) (month : string) (first second : float) :
  reachable db ->
  let db' := save_budget_row month second (save_budget_row month first db) in
  filter (for_month month) (load_budget db')
  = [mk_budget_row month (sqlite_real second)]
  /\ (second <> (-0)%float -> sqlite_real second = second)
  /\ reachable db'
  /\ NoDup (map Month (load_budget db))
  /\ NoDup (map Month (load_budget db')).
Proof.
  intros Hreach db'.
  assert (Hreach' : reachable db').
  { eapply reach_step; [eapply reach_step; [exact Hreach|]|];
      apply step_save_budget. }
  repeat split.
  - apply load_budget_entry, save_budget_row_entry.
  - apply FloatFacts.sqlite_real_same.
  - exact Hreach'.
  - apply load_budget_months, (keyed_months _ (reachable_keyed _ Hreach)).
  - apply load_budget_months, (keyed_months _ (reachable_keyed _ Hreach')).
Qed.

Lemma two_months_reachable : reachable two_months.
Proof.
  unfold two_months.
  repeat (eapply reach_step; [|apply step_save_budget]). apply reach_empty.
Defined.

(** Three months of budgets, then February saved twice more, 5000 and
    7500. *)
Lemma budget_upsert_witness :
  filter (for_month "2026-02")
    (load_budget
       (save_budget_row "2026-02" 7500
          (save_budget_row "2026-02" 5000 two_months)))
  = [mk_budget_row "2026-02" 7500]
  /\ map Month
       (load_budget
          (save_budget_row "2026-02" 7500
             (save_budget_row "2026-02" 5000 two_months)))
     = ["2026-01"; "2026-02"; "2026-03"].
Proof.
  split.
  - exact (proj1 (budget_upsert_one_entry_per_month two_months "2026-02"
                    5000 7500 two_months_reachable)).
  - reflexivity.
Defined.

End BudgetFacts.

(* ================================================================== *)
(** * Feedback *)
(* ================================================================== *)

Module FeedbackFacts.

Import Store Feedback FloatFacts Scenarios.
Local Open Scope float_scope.

(** The guard of a percentage keeps the division away from zero. *)
Lemma percent_of_percentage (part total : float) :
  percent_of part total = Ok (percentage part total).
Proof.
  unfold percent_of, percentage, truediv.
  destruct (0 <? total) eqn:Hpos; [|reflexivity].
  rewrite (gt0_neq0 _ Hpos). reflexivity.
Qed.

Example fifteen_percent_is_good :
  generate_income_feedback
    [mk_expense_row 1 "2026-02-01" "Income" 1000 "salary";
     mk_expense_row 2 "2026-02-03" "Food" 850 "canteen"]
  = Ok ("Good job! You saved about 15% of your income this month. "
        ++ "Keep building this habit and consider investing or building an "
        ++ "emergency fund.").
Proof. vm_compute. reflexivity. Qed.

Example nine_percent_is_low :
  generate_income_feedback
    [mk_expense_row 1 "2026-02-01" "Income" 1000 "salary";
     mk_expense_row 2 "2026-02-03" "Food" 910 "canteen"]
  = Ok ("You saved only about 9% of your income. "
        ++ "Aim to save at least 20% of your monthly income if possible.").
Proof. vm_compute. reflexivity. Qed.

(** C1 as worded fails at its own boundary input: with income 1000 and
    expenses 900 the savings rate is exactly 10,
    the test [savings_pct < 10] is false, and the answer is the "good
    savings" message, not the "low savings" one. *)
Lemma ten_percent_is_not_low :
  savings_pct ten_percent_month = 10
  /\ generate_income_feedback ten_percent_month
     = Ok (good_savings_msg 10)
  /\ generate_income_feedback ten_percent_month
     <> Ok (low_savings_msg (savings_pct ten_percent_month)).
Proof.
  split; [|split].
  - vm_compute. reflexivity.
  - vm_compute. reflexivity.
  - intros H. vm_compute in H. discriminate H.
Qed.

(** No month makes the income feedback raise. *)
Lemma income_feedback_runs (month_df : DataFrame) :
  exists msg, generate_income_feedback month_df = Ok msg.
Proof.
  unfold generate_income_feedback. rewrite percent_of_percentage. simpl.
  repeat match goal with
         | |- context [if ?c then _ else _] => destruct c
         end; eexists; reflexivity.
Qed.

(** C1, amended.  In a month with income above zero, expenses above zero
    and savings not below zero, the "low savings" message, which cites the
    rounded savings rate and the 20% target, is the answer exactly when the
    savings rate is below 10; otherwise the answer is the "good savings"
    message, and so it is at a savings rate of exactly 10. *)
Theorem low_savings_iff_below_ten (month_df : DataFrame) :
  (0 <? income_total month_df) = true ->
  (0 <? expense_total month_df) = true ->
  (0 <=? savings month_df) = true ->
  (generate_income_feedback month_df
     = Ok (low_savings_msg (savings_pct month_df))
   <-> (savings_pct month_df <? 10) = true)
  /\ ((savings_pct month_df <? 10) = false ->
      generate_income_feedback month_df
      = Ok (good_savings_msg (savings_pct month_df)))
  /\ (savings_pct month_df = 10 ->
      generate_income_feedback month_df = Ok (good_savings_msg 10)).
Proof.
  intros Hinc Hexp Hsav.
  assert (Hrun : generate_income_feedback month_df
                 = if savings_pct month_df <? 10
                   then Ok (low_savings_msg (savings_pct month_df))
                   else Ok (good_savings_msg (savings_pct month_df))).
  { unfold generate_income_feedback.
    rewrite (gt0_neq0 _ Hinc), (gt0_neq0 _ Hexp), Hinc. simpl.
    rewrite percent_of_percentage. simpl.
    fold (savings month_df). fold (savings_pct month_df).
    rewrite (ge0_not_lt0 _ Hsav). reflexivity. }
  rewrite Hrun. repeat split.
  - destruct (savings_pct month_df <? 10); [reflexivity|].
    intros H. injection H as H. discriminate H.
  - intros ->. reflexivity.
  - intros ->. reflexivity.
  - intros ->. reflexivity.
Qed.

(** The theorem at the boundary month. *)
Lemma low_savings_witness :
  generate_income_feedback ten_percent_month = Ok (good_savings_msg 10).
Proof.
  refine (proj2 (proj2 (low_savings_iff_below_ten ten_percent_month _ _ _)) _);
    vm_compute; reflexivity.
Defined.

Lemma health_messages_differ (u h : float) :
  NoDup [no_expenses_msg; cautionary_msg u; encouraging_msg h; mixed_msg].
Proof.
  repeat constructor; simpl; intuition discriminate.
Qed.

Example fast_food_only :
  generate_health_feedback
    [mk_expense_row 1 "2026-02-01" "Fast Food" 100 "burgers"]
  = Ok (cautionary_msg 100).
Proof. vm_compute. reflexivity. Qed.

Example groceries_only :
  generate_health_feedback
    [mk_expense_row 1 "2026-02-01" "Groceries" 100 "market"]
  = Ok (encouraging_msg 100).
Proof. vm_compute. reflexivity. Qed.

Example groceries_and_travel :
  generate_health_feedback
    [mk_expense_row 1 "2026-02-01" "Groceries" 40 "market";
     mk_expense_row 2 "2026-02-02" "Travel" 60 "bus"]
  = Ok mixed_msg.
Proof. vm_compute. reflexivity. Qed.

Example income_only :
  generate_health_feedback
    [mk_expense_row 1 "2026-02-01" "Income" 100 "salary"]
  = Ok no_expenses_msg.
Proof. vm_compute. reflexivity. Qed.

(** Five eighths on unhealthy items is 62.5 per cent, shown as 62. *)
Example tie_goes_to_even :
  generate_health_feedback
    [mk_expense_row 1 "2026-02-01" "Alcohol" 5 "bar";
     mk_expense_row 2 "2026-02-02" "Travel" 3 "bus"]
  = Ok ("You spent about 62% of your expenses on unhealthy items. "
        ++ "Consider reducing fast food, alcohol, or junk purchases and "
        ++ "think about taking or reviewing a health insurance plan.").
Proof. vm_compute. reflexivity. Qed.

Example gym_and_journey_is_half :
  Spec.share Spec.healthy Scenarios.gym_and_journey = 50.
Proof. vm_compute. reflexivity. Qed.

(** The tags of the program are the tags of the two sets. *)
Lemma tagged_has_tag (exp_df : DataFrame) :
  tagged "healthy" exp_df = filter (Spec.has_tag Spec.healthy) exp_df
  /\ tagged "unhealthy" exp_df = filter (Spec.has_tag Spec.unhealthy) exp_df.
Proof.
  unfold tagged. split; apply filter_ext; intros r;
    unfold Spec.has_tag, Spec.tag_of, get_health_tag;
    change (existsb (String.eqb (Category r)) Spec.healthy_set)
      with (mem (Category r) HEALTHY_CATEGORIES);
    change (existsb (String.eqb (Category r)) Spec.unhealthy_set)
      with (mem (Category r) UNHEALTHY_CATEGORIES);
    destruct (mem (Category r) HEALTHY_CATEGORIES);
    destruct (mem (Category r) UNHEALTHY_CATEGORIES);
    destruct (Category r =? "Food")%string; reflexivity.
Qed.

Lemma pct_is_share (month_df : DataFrame) :
  healthy_pct month_df = Spec.share Spec.healthy month_df
  /\ unhealthy_pct month_df = Spec.share Spec.unhealthy month_df.
Proof.
  unfold healthy_pct, unhealthy_pct, healthy_spent, unhealthy_spent,
    total_spent, Spec.share, percentage.
  destruct (tagged_has_tag (expense_rows month_df)) as [-> ->].
  split; reflexivity.
Qed.

(** C4.  For every month subset [generate_health_feedback] returns one
    message and raises nothing.  The message is the fixed "no data" one
    when no row has a category other than "Income"; else the cautionary one
    citing the unhealthy percentage when that is at least 50; else the
    encouraging one citing the healthy percentage when that is at least 50;
    else the "mixed" one, where each percentage is the share of the
    expenses whose category is on the unhealthy or on the healthy set.  The
    four messages are different texts, and the percentage a message cites
    is printed as an integer nearest to it.  So a month of fast food only
    is told 100 per cent unhealthy, one of groceries only 100 per cent
    healthy, groceries 40 with travel 60 "mixed", eight gym visits of a
    tenth with a journey of eight tenths 50 per cent healthy, and 62.5 per
    cent is printed as 62. *)
Theorem health_feedback_decision :
  (forall month_df : DataFrame,
      generate_health_feedback month_df
      = Ok (match Spec.expense_subset month_df with
            | [] => no_expenses_msg
            | _ :: _ =>
                if 50 <=? Spec.share Spec.unhealthy month_df
                then cautionary_msg (Spec.share Spec.unhealthy month_df)
                else if 50 <=? Spec.share Spec.healthy month_df
                     then encouraging_msg (Spec.share Spec.healthy month_df)
                     else mixed_msg
            end)
      /\ NoDup [no_expenses_msg;
                cautionary_msg (Spec.share Spec.unhealthy month_df);
                encouraging_msg (Spec.share Spec.healthy month_df);
                mixed_msg])
  /\ (forall pct : float,
        PyFormat.cites (cautionary_msg pct) (PyFormat.format_f0 false pct)
        /\ PyFormat.cites (encouraging_msg pct) (PyFormat.format_f0 false pct))
  /\ (forall (pct : float) (s : bool) (m : positive) (e : Z),
        Prim2SF pct = S754_finite s m e ->
        exists n : Z,
          PyFormat.format_f0 false pct
          = PyFormat.sign s ++ PyFormat.digits n
          /\ PyFormat.is_nearest_integer n m e)
  /\ generate_health_feedback
       [mk_expense_row 1 "2026-02-01" "Fast Food" 100 "burgers"]
     = Ok ("You spent about 100% of your expenses on unhealthy items. "
           ++ "Consider reducing fast food, alcohol, or junk purchases and "
           ++ "think about taking or reviewing a health insurance plan.")
  /\ generate_health_feedback
       [mk_expense_row 1 "2026-02-01" "Groceries" 100 "market"]
     = Ok ("Great job! Around 100% of your expenses are on healthy areas "
           ++ "like groceries, healthcare, or fitness. Your spending "
           ++ "pattern looks supportive of a healthy lifestyle.")
  /\ generate_health_feedback
       [mk_expense_row 1 "2026-02-01" "Groceries" 40 "market";
        mk_expense_row 2 "2026-02-02" "Travel" 60 "bus"]
     = Ok mixed_msg
  /\ generate_health_feedback
       [mk_expense_row 1 "2026-02-01" "Income" 100 "salary"]
     = Ok no_expenses_msg
  /\ generate_health_feedback Scenarios.gym_and_journey
     = Ok ("Great job! Around 50% of your expenses are on healthy areas "
           ++ "like groceries, healthcare, or fitness. Your spending "
           ++ "pattern looks supportive of a healthy lifestyle.")
  /\ generate_health_feedback
       [mk_expense_row 1 "2026-02-01" "Alcohol" 5 "bar";
        mk_expense_row 2 "2026-02-02" "Travel" 3 "bus"]
     = Ok ("You spent about 62% of your expenses on unhealthy items. "
           ++ "Consider reducing fast food, alcohol, or junk purchases and "
           ++ "think about taking or reviewing a health insurance plan.").
Proof.
  split; [|split; [|split; [|repeat split; vm_compute; reflexivity]]].
  - intros month_df. split; [|apply health_messages_differ].
    destruct (pct_is_share month_df) as [<- <-].
    unfold generate_health_feedback.
    change (Spec.expense_subset month_df) with (expense_rows month_df).
    destruct (expense_rows month_df) as [|r rows]; [reflexivity|].
    rewrite !percent_of_percentage. simpl.
    fold (healthy_pct month_df). fold (unhealthy_pct month_df).
    destruct (50 <=? unhealthy_pct month_df); [reflexivity|].
    destruct (50 <=? healthy_pct month_df); reflexivity.
  - intros pct. split.
    + exists "You spent about ". eexists. reflexivity.
    + exists "Great job! Around ". eexists. reflexivity.
  - intros pct s m e Hfin. exists (PyFormat.nearest_integer m e). split.
    + apply PyFormatFacts.format_f0_finite, Hfin.
    + apply PyFormatFacts.nearest_integer_is_nearest.
Qed.

End FeedbackFacts.

(* ================================================================== *)
(** * The dashboard's budget block *)
(* ================================================================== *)

Module DashboardFacts.

Import Store Feedback App FloatFacts FeedbackFacts Scenarios.
Local Open Scope float_scope.

Lemma budget_alert_band (budget_pct remaining : float) :
  budget_alert budget_pct remaining
  = Spec.alert_of (Spec.band_of budget_pct) budget_pct remaining.
Proof.
  unfold budget_alert, Spec.band_of.
  destruct (100 <=? budget_pct); [reflexivity|].
  destruct (80 <=? budget_pct); [reflexivity|].
  destruct (50 <=? budget_pct); reflexivity.
Qed.

Example all_spent : Spec.band_of (1000 / 1000 * 100) = Spec.exceeded.
Proof. reflexivity. Qed.

Example half_spent : Spec.band_of (500 / 1000 * 100) = Spec.half_used.
Proof. reflexivity. Qed.

Example just_under_half : Spec.band_of (499 / 1000 * 100) = Spec.on_track.
Proof. reflexivity. Qed.

Example overspent_block :
  budget_logic 1250 1000
  = Ok [st_metric (Glyph.bar_chart ++ " Budget Used") "125%";
        st_metric (Glyph.money_bag ++ " Remaining") (Glyph.rupee ++ " -250");
        st_error (Glyph.siren ++ " **BUDGET EXCEEDED!** Overspent by "
                  ++ Glyph.rupee ++ " 250")].
Proof. vm_compute. reflexivity. Qed.

(** C2.  For every expense total and every budget above zero the block
    reports [expense / budget * 100] as the percentage used and
    [budget - expense] as the remainder, and shows one alert, that of the
    first band that holds: at least 100 "exceeded" (citing the absolute
    value of the remainder), else at least 80 "warning", else at least 50
    "half used", else "within budget".  A percentage of exactly 100, 80 or
    50 falls in "exceeded", "warning" and "half used". *)
Theorem budget_usage_bands (expense budget : float) :
  (0 <? budget) = true ->
  let percentage_used := expense / budget * 100 in
  let remaining := budget - expense in
  budget_logic expense budget
  = Ok [st_metric (Glyph.bar_chart ++ " Budget Used")
          (percent percentage_used ++ "%");
        st_metric (Glyph.money_bag ++ " Remaining") (money remaining);
        Spec.alert_of (Spec.band_of percentage_used) percentage_used
          remaining]
  /\ PyFormat.cites (exceeded_msg remaining) (money (abs remaining))
  /\ (percentage_used = 100 ->
      Spec.band_of percentage_used = Spec.exceeded)
  /\ (percentage_used = 80 ->
      Spec.band_of percentage_used = Spec.warning)
  /\ (percentage_used = 50 ->
      Spec.band_of percentage_used = Spec.half_used).
Proof.
  intros Hpos percentage_used remaining. repeat split.
  - unfold budget_logic. rewrite Hpos, percent_of_percentage. simpl.
    unfold percentage. rewrite Hpos. rewrite budget_alert_band. reflexivity.
  - exists (Glyph.siren ++ " **BUDGET EXCEEDED!** Overspent by "), "".
    rewrite PyFormatFacts.append_empty. reflexivity.
  - intros ->. reflexivity.
  - intros ->. reflexivity.
  - intros ->. reflexivity.
Qed.

(** Four fifths of the budget: the block warns. *)
Lemma budget_usage_witness :
  budget_logic 800 1000
  = Ok [st_metric (Glyph.bar_chart ++ " Budget Used") "80%";
        st_metric (Glyph.money_bag ++ " Remaining") (Glyph.rupee ++ " 200");
        st_warning (Glyph.warning_sign ++ " **80% budget used!** Only "
                    ++ Glyph.rupee ++ " 200 left")]
  /\ Spec.band_of (800 / 1000 * 100) = Spec.warning.
Proof.
  split.
  - exact (proj1 (budget_usage_bands 800 1000 eq_refl)).
  - exact (proj1 (proj2 (proj2 (proj2 (budget_usage_bands 800 1000 eq_refl))))
             eq_refl).
Defined.

(** The block never raises: the division stands behind [budget > 0]. *)
Lemma budget_logic_runs (expense budget : float) :
  exists block, budget_logic expense budget = Ok block
                /\ (block <> [] -> (0 <? budget) = true).
Proof.
  unfold budget_logic. destruct (0 <? budget) eqn:Hpos.
  - rewrite percent_of_percentage. simpl. eexists. split; [reflexivity|].
    reflexivity.
  - exists []. split; [reflexivity|]. intros H. congruence.
Qed.

Lemma budget_of_month_missing (budget_df : list budget_row) (m : string) :
  (forall b, In b budget_df -> Month b <> m) -> budget_of_month budget_df m = 0.
Proof.
  intros Hnone. unfold budget_of_month.
  destruct (filter (fun b => (Month b =? m)%string) budget_df) as [|b l] eqn:E;
    [reflexivity|].
  assert (Hin : In b (filter (fun b => (Month b =? m)%string) budget_df))
    by (rewrite E; left; reflexivity).
  apply filter_In in Hin as [Hin Heq].
  apply String.eqb_eq in Heq. elim (Hnone b Hin Heq).
Qed.

(** C5.  When the budget of the month is zero, which it is when the month
    has no budget row, the dashboard computes no usage percentage: the
    budget block shows nothing, whatever the expense total, and the page
    is the overview followed by the transactions panel, with nothing
    raised.  For every budget the block runs without raising, and shows
    something only when the budget is above zero, the one case in which
    [expense / budget] is evaluated. *)
Theorem zero_budget_skips_usage_block (today_month : string) (db : database) :
  (budget_of_month (load_budget db) today_month =? 0) = true ->
  (forall expense,
      budget_logic expense (budget_of_month (load_budget db) today_month)
      = Ok [])
  /\ Dashboard today_month db
     = Ok (match load_expenses db with
           | [] =>
               [st_subheader (Glyph.bar_chart ++ " Overview");
                st_info
                  "No data available. Start by adding income and expenses."]
           | _ :: _ =>
               overview (to_numeric_fillna0 (load_expenses db))
                 (budget_of_month (load_budget db) today_month)
               ++ transactions_panel (to_numeric_fillna0 (load_expenses db))
           end)%list
  /\ ((forall b, In b (load_budget db) -> Month b <> today_month) ->
      budget_of_month (load_budget db) today_month = 0)
  /\ (forall expense budget,
        exists block, budget_logic expense budget = Ok block
                      /\ (block <> [] -> (0 <? budget) = true)).
Proof.
  intros Hzero.
  assert (Hskip : forall expense,
             budget_logic expense
               (budget_of_month (load_budget db) today_month) = Ok []).
  { intros expense. unfold budget_logic.
    rewrite (eq0_not_gt0 _ Hzero). reflexivity. }
  repeat split.
  - exact Hskip.
  - unfold Dashboard. destruct (load_expenses db) as [|r rows];
      [reflexivity|].
    rewrite Hskip. reflexivity.
  - apply budget_of_month_missing.
  - apply budget_logic_runs.
Qed.

(** February 2026 has transactions and no budget row. *)
Lemma zero_budget_witness :
  Dashboard "2026-02" no_budget_yet
  = Ok (overview (to_numeric_fillna0 (load_expenses no_budget_yet)) 0
        ++ transactions_panel
             (to_numeric_fillna0 (load_expenses no_budget_yet)))%list.
Proof.
  exact (proj1 (proj2 (zero_budget_skips_usage_block "2026-02" no_budget_yet
                         eq_refl))).
Defined.

End DashboardFacts.

(* ================================================================== *)
(** * The pages that write *)
(* ================================================================== *)

Module WriteFacts.

Import Store Feedback App FloatFacts StoreFacts Scenarios.
Local Open Scope float_scope.

(** ** Set Budget *)

Example valid_month_is_saved :
  snd (Set_Budget Readers.year_month "2026-02" 5500 true february_budget)
  = save_budget_row "2026-02" 5500 february_budget.
Proof. reflexivity. Qed.




(** ** Add Income, Add Expense *)

Lemma Add_Income_positive d a src clicked db :
  (0 <=? a) = true ->
  Forall positive_amount (expenses db) ->
  Forall positive_amount (expenses (snd (Add_Income d a src clicked db))).
Proof.
  intros Hmin Hall. unfold Add_Income.
  destruct clicked; [|exact Hall].
  destruct (a <=? 0) eqn:Hle; [exact Hall|]. simpl.
  apply Forall_app. split; [exact Hall|].
  constructor; [|constructor]. unfold positive_amount. simpl.
  rewrite sqlite_real_positive; apply ge0_not_le0_gt0; assumption.
Qed.

Lemma Add_Expense_positive d c a descr clicked db :
  (0 <=? a) = true ->
  Forall positive_amount (expenses db) ->
  Forall positive_amount (expenses (snd (Add_Expense d c a descr clicked db))).
Proof.
  intros Hmin Hall. unfold Add_Expense.
  destruct clicked; [|exact Hall].
  destruct (a <=? 0) eqn:Hle; [exact Hall|]. simpl.
  apply Forall_app. split; [exact Hall|].
  constructor; [|constructor]. unfold positive_amount. simpl.
  rewrite sqlite_real_positive; apply ge0_not_le0_gt0; assumption.
Qed.

Lemma Delete_Expense_sublist choice clicked db (r : expense_row) :
  In r (expenses (snd (Delete_Expense choice clicked db))) ->
  In r (expenses db).
Proof.
  unfold Delete_Expense.
  destruct (expense_rows (load_expenses db)) as [|first rest];
    [exact (fun H => H)|].
  destruct clicked; [|exact (fun H => H)]. simpl.
  intros H. apply filter_In in H. tauto.
Qed.

Lemma Set_Budget_expenses Period_M m a clicked db :
  expenses (snd (Set_Budget Period_M m a clicked db)) = expenses db.
Proof.
  unfold Set_Budget. destruct clicked; [|reflexivity].
  destruct (Period_M m); reflexivity.
Qed.

Lemma ui_step_positive Period_M db db' :
  ui_step Period_M db db' ->
  Forall positive_amount (expenses db) ->
  Forall positive_amount (expenses db').
Proof.
  intros Hstep Hall. destruct Hstep.
  - rewrite Set_Budget_expenses. exact Hall.
  - apply Add_Income_positive; assumption.
  - apply Add_Expense_positive; assumption.
  - apply Forall_forall. intros r Hin.
    apply Delete_Expense_sublist in Hin.
    rewrite Forall_forall in Hall. auto.
  - constructor.
Qed.

(** C9.  In every state the pages can reach from a fresh file, each stored
    transaction has an amount strictly above zero (so also at least zero);
    and on both write pages an amount that is not above zero gets the
    warning and the database back untouched. *)
Theorem write_paths_store_positive_amounts
    (Period_M : string -> option string) (db : database) :
  ui_reachable Period_M db ->
  Forall (fun r => (0 <? Amount r) = true /\ (0 <=? Amount r) = true)
    (expenses db)
  /\ (forall d a src,
        (a <=? 0) = true ->
        Add_Income d a src true db
        = ([st_subheader (Glyph.dollar ++ " Add Income");
            st_warning "Income amount should be greater than 0."], db))
  /\ (forall d c a descr,
        (a <=? 0) = true ->
        Add_Expense d c a descr true db
        = ([st_subheader (Glyph.money_wings ++ " Add Expense");
            st_warning "Expense amount should be greater than 0."], db)).
Proof.
  intros Hreach. split; [|split].
  - assert (Hall : Forall positive_amount (expenses db)).
    { induction Hreach as [|db db' _ IH Hstep]; [constructor|].
      exact (ui_step_positive Period_M db db' Hstep IH). }
    eapply Forall_impl; [|exact Hall].
    intros r Hr. split; [exact Hr | apply gt0_ge0, Hr].
  - intros d a src Hle. unfold Add_Income. rewrite Hle. reflexivity.
  - intros d c a descr Hle. unfold Add_Expense. rewrite Hle. reflexivity.
Qed.

Lemma entered_reachable : ui_reachable Readers.year_month entered.
Proof.
  apply (ui_next _
           (snd (Add_Income (mk_date 2026 2 1) 1000 "salary" true empty_db))).
  - apply (ui_next _ empty_db); [apply ui_start|].
    exact (ui_add_income _ empty_db (mk_date 2026 2 1) 1000 "salary" true
             eq_refl).
  - exact (ui_add_expense _ _ (mk_date 2026 2 3) 0%nat 900 "canteen" true
             eq_refl).
Defined.

(** Two entries made through the pages, then an income of zero. *)
Lemma write_paths_witness :
  map Amount (expenses entered) = [1000; 900]
  /\ Forall (fun r => (0 <? Amount r) = true /\ (0 <=? Amount r) = true)
       (expenses entered)
  /\ snd (Add_Income (mk_date 2026 2 4) 0 "gift" true entered) = entered.
Proof.
  split; [reflexivity|]. split.
  - exact (proj1 (write_paths_store_positive_amounts Readers.year_month
                    entered entered_reachable)).
  - exact (f_equal snd
             (proj1 (proj2 (write_paths_store_positive_amounts
                              Readers.year_month entered entered_reachable))
                (mk_date 2026 2 4) 0 "gift" eq_refl)).
Defined.

End WriteFacts.

(* ================================================================== *)
(** * Delete Expense *)
(* ================================================================== *)

Module DeleteFacts.

Import Store Feedback App StoreFacts Scenarios.
Local Open Scope list_scope.

Lemma same_id_same_row (rows : list expense_row) (r r' : expense_row) :
  NoDup (map ID rows) -> In r rows -> In r' rows -> ID r = ID r' -> r = r'.
Proof.
  induction rows as [|x rows IH]; simpl; [tauto|].
  intros Hnd Hr Hr' Hid. inversion Hnd as [|? ? Hfresh Hnd']; subst.
  destruct Hr as [->|Hr], Hr' as [->|Hr']; auto.
  - elim Hfresh. rewrite Hid. apply in_map, Hr'.
  - elim Hfresh. rewrite <- Hid. apply in_map, Hr.
Qed.

Lemma filter_fresh_id (rows : list expense_row) (row_id : Z) :
  ~ In row_id (map ID rows) ->
  filter (fun r => negb (ID r =? row_id)%Z) rows = rows.
Proof.
  induction rows as [|x rows IH]; simpl; [reflexivity|].
  intros Hfresh. destruct (Z.eqb_spec (ID x) row_id) as [Heq|Hneq]; simpl.
  - elim Hfresh. left. exact Heq.
  - rewrite IH; [reflexivity|]. intros Hin. apply Hfresh. right. exact Hin.
Qed.

(** The row with the id goes, the rows before and after it stay where they
    are. *)
Lemma delete_splits (rows : list expense_row) (victim : expense_row) :
  NoDup (map ID rows) -> In victim rows ->
  exists before after,
    rows = before ++ victim :: after
    /\ filter (fun r => negb (ID r =? ID victim)%Z) rows = before ++ after.
Proof.
  induction rows as [|x rows IH]; simpl; [tauto|].
  intros Hnd Hin. inversion Hnd as [|? ? Hfresh Hnd']; subst.
  destruct Hin as [->|Hin].
  - exists [], rows. rewrite Z.eqb_refl. simpl.
    rewrite filter_fresh_id by exact Hfresh. split; reflexivity.
  - destruct (IH Hnd' Hin) as (before & after & Hrows & Hfilter).
    exists (x :: before), after.
    destruct (Z.eqb_spec (ID x) (ID victim)) as [Heq|Hneq]; simpl.
    + elim Hfresh. rewrite Heq. apply in_map, Hin.
    + rewrite Hfilter, Hrows. split; reflexivity.
Qed.

Lemma row_ids_spec (db : database) (row_id : Z) :
  In row_id (row_ids db) <->
  exists r, In r (expenses db) /\ ID r = row_id /\ Category r <> "Income".
Proof.
  unfold row_ids, expense_rows, is_income. rewrite in_map_iff.
  split; intros (r & H1 & H2).
  - apply filter_In in H2 as [Hin Hcat]. apply load_expenses_In in Hin.
    apply negb_true_iff, String.eqb_neq in Hcat. eauto.
  - destruct H2 as [Hid Hcat]. exists r. split; [exact Hid|].
    apply filter_In. split; [apply load_expenses_In, H1|].
    apply negb_true_iff, String.eqb_neq, Hcat.
Qed.

(** The id the select box hands over is one of its options. *)
Lemma selected_is_option (db : database) (choice : nat)
    (first : expense_row) (rest : list expense_row) :
  expense_rows (load_expenses db) = first :: rest ->
  In (selectbox (ID first) (row_ids db) choice) (row_ids db).
Proof.
  intros Hrows. unfold selectbox.
  destruct (Nat.lt_ge_cases choice (List.length (row_ids db))) as [Hlt|Hge].
  - apply nth_In, Hlt.
  - rewrite nth_overflow by exact Hge.
    unfold row_ids. rewrite Hrows. left. reflexivity.
Qed.

Example four_rows_options : row_ids four_rows = [2; 3]%Z.
Proof. reflexivity. Qed.

(** C10.  With ids a primary key: the ids the Delete Expense page offers
    are exactly the ids of the stored rows whose category is not "Income";
    pressing the button, whatever was picked, leaves every income row in
    the table and, when there is something to pick, takes out one row, an
    expense; and the delete helper keeps exactly the rows with another id,
    so the table loses one row when the id is there. *)
Theorem delete_view_spares_income (db : database) (choice : nat) :
  NoDup (map ID (expenses db)) ->
  (forall row_id,
      In row_id (row_ids db) <->
      exists r, In r (expenses db) /\ ID r = row_id
                /\ Category r <> "Income")
  /\ (forall r, In r (expenses db) -> Category r = "Income" ->
                In r (expenses (snd (Delete_Expense choice true db))))
  /\ (row_ids db <> [] ->
      exists victim before after,
        Category victim <> "Income"
        /\ expenses db = before ++ victim :: after
        /\ expenses (snd (Delete_Expense choice true db)) = before ++ after)
  /\ (forall row_id r,
        In r (expenses (delete_expense_by_id row_id db)) <->
        In r (expenses db) /\ ID r <> row_id)
  /\ (forall row_id,
        In row_id (map ID (expenses db)) ->
        List.length (expenses db)
        = S (List.length (expenses (delete_expense_by_id row_id db)))).
Proof.
  intros Hkey.
  assert (Hpick : forall first rest,
             expense_rows (load_expenses db) = first :: rest ->
             exists victim,
               In victim (expenses db) /\ Category victim <> "Income"
               /\ ID victim = selectbox (ID first) (row_ids db) choice).
  { intros first rest Hrows.
    pose proof (selected_is_option db choice first rest Hrows) as Hsel.
    apply row_ids_spec in Hsel as (victim & Hin & Hid & Hcat). eauto. }
  split; [|split; [|split; [|split]]].
  - apply row_ids_spec.
  - intros r Hin Hinc. unfold Delete_Expense.
    destruct (expense_rows (load_expenses db)) as [|first rest] eqn:Hrows;
      [exact Hin|].
    simpl. destruct (Hpick first rest eq_refl) as (victim & Hv & Hcat & Hid).
    apply filter_In. split; [exact Hin|].
    apply negb_true_iff, Z.eqb_neq. rewrite <- Hid. intros Hsame.
    apply Hcat. rewrite <- (same_id_same_row _ r victim Hkey Hin Hv Hsame).
    exact Hinc.
  - intros Hsome. unfold Delete_Expense.
    destruct (expense_rows (load_expenses db)) as [|first rest] eqn:Hrows.
    + elim Hsome. unfold row_ids. rewrite Hrows. reflexivity.
    + simpl. destruct (Hpick first rest eq_refl) as (victim & Hv & Hcat & Hid).
      destruct (delete_splits _ victim Hkey Hv)
        as (before & after & Hsplit & Hgone).
      exists victim, before, after. rewrite <- Hid. auto.
  - intros row_id r. simpl. rewrite filter_In, negb_true_iff, Z.eqb_neq.
    reflexivity.
  - intros row_id Hin. apply in_map_iff in Hin as (victim & Hid & Hv).
    destruct (delete_splits _ victim Hkey Hv)
      as (before & after & Hsplit & Hgone).
    simpl. rewrite <- Hid, Hgone, Hsplit. rewrite !length_app. simpl. lia.
Qed.

(** The second option of the page is row 3, the bus fare. *)
Lemma delete_view_witness :
  map ID (expenses (snd (Delete_Expense 1 true four_rows))) = [1; 2; 4]%Z
  /\ (forall r, In r (expenses four_rows) -> Category r = "Income" ->
                In r (expenses (snd (Delete_Expense 1 true four_rows)))).
Proof.
  split; [reflexivity|].
  refine (proj1 (proj2 (delete_view_spares_income four_rows 1 _))).
  repeat constructor; simpl; intuition discriminate.
Defined.

End DeleteFacts.

(* ================================================================== *)
(** * Month views *)
(* ================================================================== *)

Module MonthFacts.

Import Store Feedback App StoreFacts Scenarios.
Local Open Scope list_scope.

Lemma combine_In_nth {A B : Type} (l : list A) (l' : list B) (a : A) (b : B) :
  In (a, b) (combine l l') ->
  exists j, nth_error l j = Some a /\ nth_error l' j = Some b.
Proof.
  revert l'. induction l as [|x l IH]; intros [|y l']; simpl; try tauto.
  intros [Heq|Hin].
  - injection Heq as -> ->. exists 0%nat. split; reflexivity.
  - destruct (IH l' Hin) as (j & Hj & Hj'). exists (S j). split; assumption.
Qed.

Lemma same_id_same_place (rows : list expense_row) (i j : nat)
    (r r' : expense_row) :
  NoDup (map ID rows) ->
  nth_error rows i = Some r -> nth_error rows j = Some r' ->
  ID r = ID r' -> i = j.
Proof.
  intros Hnd Hi Hj Hid.
  apply (proj1 (NoDup_nth_error (map ID rows)) Hnd).
  - rewrite length_map. apply nth_error_Some. congruence.
  - rewrite (map_nth_error ID _ _ Hi), (map_nth_error ID _ _ Hj), Hid.
    reflexivity.
Qed.

Section Parsed.

Context {Timestamp : Type}.
Variable to_datetime : list string -> list (option Timestamp).
Variable to_period_M : Timestamp -> string.

(** A row of the dated frame stems from a stored row whose date cell was
    read as a timestamp. *)
Lemma dated_frame_origin (df : DataFrame) (d : dated_row Timestamp) :
  In d (dated_frame to_datetime to_period_M df) ->
  exists j r ts,
    nth_error df j = Some r
    /\ nth_error (to_datetime (map Date df)) j = Some (Some ts)
    /\ ID (row d) = ID r.
Proof.
  unfold dated_frame. rewrite in_flat_map.
  intros ([r [ts|]] & Hcell & Hkeep); simpl in Hkeep; [|tauto].
  destruct Hkeep as [<-|[]].
  destruct (combine_In_nth _ _ _ _ Hcell) as (j & Hj & Hj').
  exists j, r, ts. auto.
Qed.

End Parsed.

Example edited_row_is_listed :
  map ID (load_expenses edited_by_hand) = [1; 2]%Z.
Proof. reflexivity. Qed.

Example edited_row_is_dropped :
  map (fun d => ID (row d))
    (month_group Readers.iso_dates Readers.period_M edited_by_hand "2026-02")
  = [1%Z]
  /\ month_options
       (dated_frame Readers.iso_dates Readers.period_M
          (load_expenses edited_by_hand))
     = ["2026-02"%string].
Proof. split; reflexivity. Qed.

(** C6.  Whatever reads the dates: a stored transaction whose date cell
    comes back as no date (ids being a primary key) is in the subset of no
    month key, the subsets from which Statistics and Smart Insights take
    their figures; it is still in the list [load_expenses] returns and in
    the table, as it was stored. *)
Theorem unparseable_date_in_no_month
    (Timestamp : Type)
    (to_datetime : list string -> list (option Timestamp))
    (to_period_M : Timestamp -> string)
    (db : database) (i : nat) (r : expense_row) :
  NoDup (map ID (expenses db)) ->
  nth_error (load_expenses db) i = Some r ->
  nth_error (to_datetime (map Date (load_expenses db))) i = Some None ->
  (forall m d,
      In d (month_group to_datetime to_period_M db m) -> ID (row d) <> ID r)
  /\ In r (load_expenses db)
  /\ In r (expenses db).
Proof.
  intros Hkey Hrow Hnat.
  assert (Hlisted : In r (load_expenses db))
    by (eapply nth_error_In; exact Hrow).
  split; [|split; [exact Hlisted | apply load_expenses_In, Hlisted]].
  intros m d Hin Hsame.
  unfold month_group, month_df in Hin. apply filter_In in Hin as [Hin _].
  apply dated_frame_origin in Hin as (j & r' & ts & Hj & Hts & Hid).
  assert (j = i).
  { apply (same_id_same_place (load_expenses db) j i r' r);
      [apply load_expenses_ids, Hkey | exact Hj | exact Hrow | congruence]. }
  subst j. congruence.
Qed.

(** Row 2 of the hand-edited store, read by the reader of ISO dates. *)
Lemma unparseable_date_witness :
  (forall m d,
      In d (month_group Readers.iso_dates Readers.period_M edited_by_hand m) ->
      ID (row d) <> 2%Z)
  /\ In (mk_expense_row 2 "someday" "Travel" 60 "bus")
       (load_expenses edited_by_hand).
Proof.
  refine (let H := unparseable_date_in_no_month Store.date Readers.iso_dates
                     Readers.period_M edited_by_hand 1
                     (mk_expense_row 2 "someday" "Travel" 60 "bus") _ eq_refl
                     eq_refl in
          conj (proj1 H) (proj1 (proj2 H))).
  repeat constructor; simpl; intuition discriminate.
Defined.

End MonthFacts.

(* ================================================================== *)
(** * The listings are ordered *)
(* ================================================================== *)

Module ListingFacts.

Import Store Notions StoreFacts.

Lemma ascii_compare_trans (a b c : ascii) :
  Ascii.compare a b = Lt -> Ascii.compare b c = Lt -> Ascii.compare a c = Lt.
Proof.
  unfold Ascii.compare. rewrite !N.compare_lt_iff. apply N.lt_trans.
Qed.

Lemma ascii_compare_refl (a : ascii) : Ascii.compare a a = Eq.
Proof. unfold Ascii.compare. apply N.compare_refl. Qed.

Lemma string_compare_refl (s : string) : String.compare s s = Eq.
Proof.
  induction s as [|a s IH]; simpl; [reflexivity|].
  rewrite ascii_compare_refl. exact IH.
Qed.

Lemma string_compare_trans (s1 s2 s3 : string) :
  String.compare s1 s2 = Lt -> String.compare s2 s3 = Lt ->
  String.compare s1 s3 = Lt.
Proof.
  revert s2 s3.
  induction s1 as [|a s1 IH]; intros [|b s2] [|c s3]; simpl;
    try discriminate; try reflexivity.
  destruct (Ascii.compare a b) eqn:Hab; try discriminate;
    destruct (Ascii.compare b c) eqn:Hbc; try discriminate; intros H12 H23.
  - apply Ascii.compare_eq_iff in Hab, Hbc. subst.
    rewrite ascii_compare_refl. eapply IH; eassumption.
  - apply Ascii.compare_eq_iff in Hab. subst. rewrite Hbc. reflexivity.
  - apply Ascii.compare_eq_iff in Hbc. subst. rewrite Hab. reflexivity.
  - rewrite (ascii_compare_trans _ _ _ Hab Hbc). reflexivity.
Qed.

Lemma string_compare_flip (s1 s2 : string) :
  String.compare s1 s2 = Gt -> String.compare s2 s1 = Lt.
Proof.
  intros H. rewrite String.compare_antisym, H. reflexivity.
Qed.

Lemma date_id_le_listed (r1 r2 : expense_row) :
  date_id_le r1 r2 = true <-> listed_before r1 r2.
Proof.
  unfold date_id_le, listed_before.
  destruct (String.compare (Date r1) (Date r2)) eqn:Hc.
  - apply String.compare_eq_iff in Hc. rewrite Z.leb_le.
    split; [intros H; right; auto | intros [H|[_ H]]; [discriminate|exact H]].
  - split; [intros _; left; reflexivity | reflexivity].
  - split; [discriminate|]. intros [H|[H _]]; [discriminate|].
    rewrite H, string_compare_refl in Hc. discriminate.
Qed.

Lemma month_le_before (b1 b2 : budget_row) :
  month_le b1 b2 = true <-> month_before b1 b2.
Proof.
  unfold month_le, month_before.
  destruct (String.compare (Month b1) (Month b2)) eqn:Hc.
  - apply String.compare_eq_iff in Hc. tauto.
  - tauto.
  - split; [discriminate|]. intros [H|H]; [discriminate|].
    rewrite H, string_compare_refl in Hc. discriminate.
Qed.

Lemma listed_before_total (r1 r2 : expense_row) :
  date_id_le r1 r2 = false -> listed_before r2 r1.
Proof.
  unfold date_id_le, listed_before.
  destruct (String.compare (Date r1) (Date r2)) eqn:Hc; try discriminate.
  - apply String.compare_eq_iff in Hc. rewrite Z.leb_gt.
    intros H. right. split; [auto|lia].
  - intros _. left. apply string_compare_flip, Hc.
Qed.

Lemma listed_before_trans (r1 r2 r3 : expense_row) :
  listed_before r1 r2 -> listed_before r2 r3 -> listed_before r1 r3.
Proof.
  unfold listed_before. intros [H12|[E12 I12]] [H23|[E23 I23]].
  - left. eapply string_compare_trans; eassumption.
  - left. rewrite <- E23. exact H12.
  - left. rewrite E12. exact H23.
  - right. split; [congruence|lia].
Qed.

Lemma month_before_total (b1 b2 : budget_row) :
  month_le b1 b2 = false -> month_before b2 b1.
Proof.
  unfold month_le, month_before.
  destruct (String.compare (Month b1) (Month b2)) eqn:Hc; try discriminate.
  intros _. left. apply string_compare_flip, Hc.
Qed.

Lemma month_before_trans (b1 b2 b3 : budget_row) :
  month_before b1 b2 -> month_before b2 b3 -> month_before b1 b3.
Proof.
  unfold month_before. intros [H12|E12] [H23|E23].
  - left. eapply string_compare_trans; eassumption.
  - left. rewrite <- E23. exact H12.
  - left. rewrite E12. exact H23.
  - right. congruence.
Qed.

Section Sorting.

Context {A : Type} (le : A -> A -> bool) (before : A -> A -> Prop).
Hypothesis le_before : forall x y, le x y = true <-> before x y.
Hypothesis before_total : forall x y, le x y = false -> before y x.
Hypothesis before_trans : forall x y z, before x y -> before y z -> before x z.

Lemma insert_by_sorted (x : A) (l : list A) :
  StronglySorted before l -> StronglySorted before (insert_by le x l).
Proof.
  induction 1 as [|y l Hsorted IH Hall]; simpl.
  - constructor; constructor.
  - destruct (le x y) eqn:Hle.
    + apply le_before in Hle. constructor.
      * constructor; assumption.
      * constructor; [exact Hle|].
        eapply Forall_impl; [|exact Hall]. intros z Hz.
        eapply before_trans; eassumption.
    + constructor; [exact IH|].
      apply Forall_forall. intros z Hz.
      apply (Permutation_in _ (insert_by_perm le x l)) in Hz.
      destruct Hz as [<-|Hz]; [apply before_total, Hle|].
      rewrite Forall_forall in Hall. auto.
Qed.

Lemma order_by_sorted (l : list A) : StronglySorted before (order_by le l).
Proof.
  induction l as [|x l IH]; simpl; [constructor|].
  apply insert_by_sorted, IH.
Qed.

End Sorting.

(** X1.  [load_expenses] returns the stored rows, each as often as the
    table holds it, and every row of the list stands before all rows after
    it in the order by date text, then id. *)
Theorem load_expenses_ordered (db : database) :
  StronglySorted listed_before (load_expenses db)
  /\ Permutation (load_expenses db) (expenses db).
Proof.
  split.
  - apply (order_by_sorted date_id_le listed_before);
      [apply date_id_le_listed | apply listed_before_total
      | apply listed_before_trans].
  - apply order_by_perm.
Qed.

(** A month of a table with one row per month never repeats in the
    listing, so it stands strictly before the months after it. *)
Lemma months_strictly_ascend (l : list budget_row) :
  NoDup (map Month l) -> StronglySorted month_before l ->
  StronglySorted
    (fun b1 b2 => String.compare (Month b1) (Month b2) = Lt) l.
Proof.
  induction l as [|b l IH]; simpl; intros Hnd Hs; [constructor|].
  inversion Hnd as [|? ? Hfresh Hnd']; subst.
  inversion Hs as [|? ? Hs' Hall]; subst.
  constructor; [auto|].
  apply Forall_forall. intros b' Hin. rewrite Forall_forall in Hall.
  destruct (Hall b' Hin) as [Hlt|Heq]; [exact Hlt|].
  elim Hfresh. rewrite Heq. apply in_map, Hin.
Qed.

(** X2.  In every state the helpers reach from a fresh file, [load_budget]
    returns the rows of the budget table with the months strictly
    ascending. *)
Theorem load_budget_ordered (db : database) :
  reachable db ->
  StronglySorted
    (fun b1 b2 => String.compare (Month b1) (Month b2) = Lt) (load_budget db)
  /\ Permutation (load_budget db) (budget db).
Proof.
  intros Hreach. split; [|apply order_by_perm].
  apply months_strictly_ascend.
  - eapply Permutation_NoDup;
      [apply Permutation_map, Permutation_sym, order_by_perm|].
    apply (keyed_months _ (reachable_keyed _ Hreach)).
  - apply (order_by_sorted month_le month_before);
      [apply month_le_before | apply month_before_total
      | apply month_before_trans].
Qed.

(** March is saved before January and February. *)
Lemma load_budget_ordered_witness :
  map Month
    (load_budget
       (save_budget_row "2026-02" 4000
          (save_budget_row "2026-01" 3000
             (save_budget_row "2026-03" 900 empty_db))))
  = ["2026-01"; "2026-02"; "2026-03"]
  /\ StronglySorted
       (fun b1 b2 => String.compare (Month b1) (Month b2) = Lt)
       (load_budget
          (save_budget_row "2026-02" 4000
             (save_budget_row "2026-01" 3000
                (save_budget_row "2026-03" 900 empty_db)))).
Proof.
  split; [reflexivity|].
  refine (proj1 (load_budget_ordered _ _)).
  repeat (eapply reach_step; [|apply step_save_budget]). apply reach_empty.
Defined.

End ListingFacts.

(* ================================================================== *)
(** * Inserting and deleting transactions *)
(* ================================================================== *)

Module RowFacts.

Import Store Notions StoreFacts DeleteFacts.
Local Open Scope list_scope.

Lemma inserted_row_fresh date_value category amount description db
    (r : expense_row) :
  In r (expenses db) ->
  (ID r < ID (inserted_row date_value category amount description db))%Z.
Proof.
  intros Hin. apply max_rowid_bound in Hin. simpl. lia.
Qed.

(** X3.  [save_expense] adds one row, with the text of the date, the
    category and description it was given and the amount as the REAL
    column hands it back (the amount itself, unless it is the negative
    zero, which comes back as zero), under an id above every id of the
    table and above every id handed out before; [load_expenses] then lists
    that row and exactly the rows it listed before, and the budget table
    is as it was. *)
Theorem save_expense_listed date_value category amount description db :
  let db' := save_expense date_value category amount description db in
  let new := inserted_row date_value category amount description db in
  (forall r, In r (load_expenses db') <-> r = new \/ In r (load_expenses db))
  /\ (Date new, Category new, Description new)
     = (str_date date_value, category, description)
  /\ Amount new = sqlite_real amount
  /\ (amount <> (-0)%float -> Amount new = amount)
  /\ sqlite_real (-0) = 0%float
  /\ (forall r, In r (expenses db) -> (ID r < ID new)%Z)
  /\ (sqlite_sequence db < ID new)%Z
  /\ sqlite_sequence db' = ID new
  /\ List.length (load_expenses db') = S (List.length (load_expenses db))
  /\ budget db' = budget db.
Proof.
  intros db' new.
  split; [|split; [|split; [|split; [|split; [|split; [|split; [|split;
    [|split]]]]]]]].
  - intros r. rewrite !load_expenses_In. unfold db'. simpl.
    rewrite in_app_iff. simpl. fold new. intuition.
  - reflexivity.
  - reflexivity.
  - apply FloatFacts.sqlite_real_same.
  - reflexivity.
  - apply inserted_row_fresh.
  - simpl. lia.
  - reflexivity.
  - unfold load_expenses.
    rewrite (Permutation_length (order_by_perm date_id_le (expenses db'))),
      (Permutation_length (order_by_perm date_id_le (expenses db))).
    unfold db'. simpl. rewrite length_app. simpl. lia.
  - reflexivity.
Qed.

Lemma delete_record (row_id : Z) (db : database) :
  filter (fun r => negb (ID r =? row_id)%Z) (expenses db) = expenses db ->
  delete_expense_by_id row_id db = db.
Proof.
  destruct db as [rows budgets seq]. unfold delete_expense_by_id. simpl.
  intros ->. reflexivity.
Qed.

Lemma filter_idem {A : Type} (p : A -> bool) (l : list A) :
  filter p (filter p l) = filter p l.
Proof.
  induction l as [|x l IH]; simpl; [reflexivity|].
  destruct (p x) eqn:Hp; simpl; [rewrite Hp, IH|]; auto.
Qed.

Lemma filter_comm {A : Type} (p q : A -> bool) (l : list A) :
  filter p (filter q l) = filter q (filter p l).
Proof.
  induction l as [|x l IH]; simpl; [reflexivity|].
  destruct (p x) eqn:Hp, (q x) eqn:Hq; simpl; rewrite ?Hp, ?Hq, IH;
    reflexivity.
Qed.

Example delete_unknown_id :
  delete_expense_by_id 7 Scenarios.four_rows = Scenarios.four_rows.
Proof. reflexivity. Qed.

(** X4.  After [delete_expense_by_id] no row of the table has the id.
    Deleting an id the table does not hold changes nothing, so deleting
    twice is deleting once; and two deletes give the same table in either
    order. *)
Theorem delete_expense_by_id_settles (row_id other : Z) (db : database) :
  ~ In row_id (map ID (load_expenses (delete_expense_by_id row_id db)))
  /\ (~ In row_id (map ID (expenses db)) ->
      delete_expense_by_id row_id db = db)
  /\ delete_expense_by_id row_id (delete_expense_by_id row_id db)
     = delete_expense_by_id row_id db
  /\ delete_expense_by_id row_id (delete_expense_by_id other db)
     = delete_expense_by_id other (delete_expense_by_id row_id db).
Proof.
  repeat split.
  - rewrite in_map_iff. intros (r & Hid & Hin).
    apply load_expenses_In in Hin. simpl in Hin.
    apply filter_In in Hin as [_ Hne].
    apply negb_true_iff, Z.eqb_neq in Hne. contradiction.
  - intros Hfresh. apply delete_record, filter_fresh_id, Hfresh.
  - unfold delete_expense_by_id. simpl. rewrite filter_idem. reflexivity.
  - unfold delete_expense_by_id. simpl. rewrite filter_comm. reflexivity.
Qed.

(** X5.  Saving a transaction and deleting the id it got gives back the
    table of transactions as it was, row for row; only the counter of ids
    has moved on, so the id is spent. *)
Theorem save_then_delete_restores date_value category amount description db :
  let new := inserted_row date_value category amount description db in
  let db' :=
    delete_expense_by_id (ID new)
      (save_expense date_value category amount description db) in
  expenses db' = expenses db
  /\ budget db' = budget db
  /\ sqlite_sequence db' = ID new
  /\ (sqlite_sequence db < sqlite_sequence db')%Z.
Proof.
  intros new db'. repeat split; [|simpl; lia].
  unfold db'. simpl. rewrite filter_app. simpl. rewrite Z.eqb_refl. simpl.
  rewrite app_nil_r. apply filter_fresh_id.
  rewrite in_map_iff. intros (r & Hid & Hin).
  pose proof (inserted_row_fresh date_value category amount description db
                r Hin) as Hlt.
  fold new in Hlt. simpl in Hid. simpl in Hlt. lia.
Qed.

Lemma store_step_keeps_old_rows (db db' : database) :
  store_step db db' ->
  (sqlite_sequence db <= sqlite_sequence db')%Z
  /\ forall r, In r (expenses db') ->
               (ID r <= sqlite_sequence db)%Z -> In r (expenses db).
Proof.
  intros Hstep. destruct Hstep as [db d c a descr|db row_id|db m a|db]; simpl.
  - split; [lia|]. intros r Hin Hold. apply in_app_iff in Hin.
    destruct Hin as [Hin|[<-|[]]]; [exact Hin|]. simpl in Hold. lia.
  - split; [lia|]. intros r Hin _. apply filter_In in Hin. tauto.
  - split; [lia|]. auto.
  - split; [lia|]. intros r [].
Qed.

(** X6.  However the helpers are called afterwards, the counter of ids
    never goes down, also not when all data is cleared, and a row found
    later under an id that was already handed out is a row of the earlier
    table, unchanged: no id is given to a second transaction and no stored
    transaction is rewritten. *)
Theorem ids_are_never_reused (db db' : database) :
  later db db' ->
  (sqlite_sequence db <= sqlite_sequence db')%Z
  /\ forall r, In r (expenses db') ->
               (ID r <= sqlite_sequence db)%Z -> In r (expenses db).
Proof.
  induction 1 as [db|db db' db'' _ [IHseq IHrows] Hstep].
  - split; [lia|auto].
  - destruct (store_step_keeps_old_rows db' db'' Hstep) as [Hseq Hrows].
    split; [lia|]. intros r Hin Hold. apply IHrows; [|exact Hold].
    apply Hrows; [exact Hin|lia].
Qed.

(** Row 2 is deleted, everything is cleared, and a new row is saved: it
    gets id 5, not 1. *)
Lemma ids_are_never_reused_witness :
  map ID
    (expenses
       (save_expense (mk_date 2026 3 1) "Bills" 40 "power"
          (clear_all_data (delete_expense_by_id 2 Scenarios.four_rows))))
  = [5%Z]
  /\ (sqlite_sequence Scenarios.four_rows
      <= sqlite_sequence
           (save_expense (mk_date 2026 3 1) "Bills" 40 "power"
              (clear_all_data
                 (delete_expense_by_id 2 Scenarios.four_rows))))%Z.
Proof.
  split; [reflexivity|].
  refine (proj1 (ids_are_never_reused Scenarios.four_rows _ _)).
  eapply later_call; [eapply later_call; [eapply later_call;
    [apply later_now|apply (step_delete_expense _ 2)]|apply step_clear]|].
  apply step_save_expense.
Defined.

End RowFacts.

(* ================================================================== *)
(** * Looking a budget up after saving it *)
(* ================================================================== *)

Module LookupFacts.

Import Store Feedback App StoreFacts BudgetFacts.
Local Open Scope list_scope.

Lemma budget_of_month_filter (budget_df : list budget_row) (m : string) :
  budget_of_month budget_df m
  = match filter (for_month m) budget_df with
    | [] => 0%float
    | b :: _ => Budget b
    end.
Proof. reflexivity. Qed.

Lemma filter_other_month (m m' : string) (l : list budget_row) :
  m' <> m ->
  filter (for_month m') (filter (fun b => negb (Month b =? m)%string) l)
  = filter (for_month m') l.
Proof.
  intros Hne. induction l as [|b l IH]; simpl; [reflexivity|].
  unfold for_month at 2.
  destruct (String.eqb_spec (Month b) m) as [Hm|Hm]; simpl.
  - destruct (String.eqb_spec (Month b) m') as [Hm'|Hm']; [congruence|].
    exact IH.
  - unfold for_month at 1.
    destruct (Month b =? m')%string; [rewrite IH|]; auto.
Qed.

Lemma save_other_month (db : database) (m m' : string) (a : float) :
  m' <> m ->
  filter (for_month m') (budget (save_budget_row m a db))
  = filter (for_month m') (budget db).
Proof.
  intros Hne. simpl. rewrite filter_app, filter_other_month by exact Hne.
  simpl. unfold for_month at 2. simpl.
  destruct (String.eqb_spec m m') as [Hm|Hm]; [congruence|].
  apply app_nil_r.
Qed.

(** With one row per month a month selects at most one row. *)
Lemma one_row_per_month (m : string) (l : list budget_row) :
  NoDup (map Month l) -> (List.length (filter (for_month m) l) <= 1)%nat.
Proof.
  induction l as [|b l IH]; simpl; intros Hnd; [lia|].
  inversion Hnd as [|? ? Hfresh Hnd']; subst. specialize (IH Hnd').
  unfold for_month at 1.
  destruct (String.eqb_spec (Month b) m) as [Hm|Hm]; [|exact IH].
  simpl. destruct (filter (for_month m) l) as [|b' l'] eqn:E;
    [simpl; lia|].
  elim Hfresh.
  assert (Hin : In b' (filter (for_month m) l)) by (rewrite E; left; auto).
  apply filter_In in Hin as [Hin Hb']. apply String.eqb_eq in Hb'.
  rewrite Hm, <- Hb'. apply in_map, Hin.
Qed.

Lemma short_perm_eq {A : Type} (l l' : list A) :
  (List.length l <= 1)%nat -> Permutation l l' -> l' = l.
Proof.
  destruct l as [|x [|y l]]; simpl; intros Hlen Hperm; [| |lia].
  - apply Permutation_nil, Hperm.
  - apply Permutation_length_1_inv, Hperm.
Qed.

(** X7.  With one row per month in the budget table: after
    [save_budget_row] the dashboard's lookup of that month in the listing
    finds the saved amount as the REAL column hands it back (the amount
    itself, unless it is the negative zero), and its lookup of any other
    month finds what it found before. *)
Theorem budget_of_month_after_save (db : database) (m m' : string)
    (a : float) :
  NoDup (map Month (budget db)) ->
  budget_of_month (load_budget (save_budget_row m a db)) m = sqlite_real a
  /\ (a <> (-0)%float -> sqlite_real a = a)
  /\ (m' <> m ->
      budget_of_month (load_budget (save_budget_row m a db)) m'
      = budget_of_month (load_budget db) m').
Proof.
  intros Hkey. split; [|split].
  - rewrite budget_of_month_filter.
    rewrite (load_budget_entry m (mk_budget_row m (sqlite_real a)));
      [reflexivity | apply save_budget_row_entry].
  - apply FloatFacts.sqlite_real_same.
  - intros Hne. rewrite !budget_of_month_filter.
    assert (Hsame : filter (for_month m') (load_budget (save_budget_row m a db))
                    = filter (for_month m') (load_budget db)).
    { apply short_perm_eq.
      - apply one_row_per_month, load_budget_months, Hkey.
      - eapply Permutation_trans; [apply filter_perm, order_by_perm|].
        rewrite <- (save_other_month db m m' a Hne).
        apply filter_perm, Permutation_sym, order_by_perm. }
    rewrite Hsame. reflexivity.
Qed.

(** February is saved over; January and March are looked up as before. *)
Lemma budget_of_month_witness :
  budget_of_month
    (load_budget (save_budget_row "2026-02" 5500 Scenarios.two_months))
    "2026-02" = 5500%float
  /\ budget_of_month
       (load_budget (save_budget_row "2026-02" 5500 Scenarios.two_months))
       "2026-03" = 900%float.
Proof.
  assert (Hkey : NoDup (map Month (budget Scenarios.two_months)))
    by (cbv; repeat constructor; simpl; intuition discriminate).
  split.
  - exact (proj1 (budget_of_month_after_save Scenarios.two_months "2026-02"
                    "2026-03" 5500 Hkey)).
  - refine (eq_trans
              (proj2 (proj2 (budget_of_month_after_save Scenarios.two_months
                               "2026-02" "2026-03" 5500 Hkey)) _) eq_refl).
    discriminate.
Defined.

(** X8.  When the month text reads as month [m] and the button is
    pressed, the dashboard of month [m] run on the database the Set Budget
    page hands back shows the amount just entered (as the REAL column
    hands it back: itself, unless it is the negative zero) as the budget
    and measures the expenses against it; the transactions are as
    before. *)
Theorem set_budget_then_dashboard
    (Period_M : string -> option string) (month_input m : string)
    (budget_amount : float) (db : database) :
  Period_M month_input = Some m ->
  Dashboard m (snd (Set_Budget Period_M month_input budget_amount true db))
  = match load_expenses db with
    | [] =>
        Ok [st_subheader (Glyph.bar_chart ++ " Overview")%string;
            st_info
              "No data available. Start by adding income and expenses."]
    | _ :: _ =>
        let df := to_numeric_fillna0 (load_expenses db) in
        block <- budget_logic (expense_total df) (sqlite_real budget_amount) ;;
        Ok (overview df (sqlite_real budget_amount) ++ block
            ++ transactions_panel df)
    end
  /\ (budget_amount <> (-0)%float -> sqlite_real budget_amount = budget_amount).
Proof.
  intros Hread. split; [|apply FloatFacts.sqlite_real_same].
  unfold Set_Budget. rewrite Hread. simpl snd.
  unfold Dashboard.
  change (load_expenses (save_budget_row m budget_amount db))
    with (load_expenses db).
  destruct (load_expenses db) as [|r rows]; [reflexivity|].
  rewrite budget_of_month_filter.
  rewrite (load_budget_entry m (mk_budget_row m (sqlite_real budget_amount)));
    [reflexivity | apply save_budget_row_entry].
Qed.

(** A budget of 1000 for February 2026 over 900 of expenses: 90 per cent
    used. *)
Lemma set_budget_then_dashboard_witness :
  exists before after,
    Dashboard "2026-02"
      (snd (Set_Budget Readers.year_month "2026-02" 1000 true
              Scenarios.no_budget_yet))
    = Ok (before
          ++ [st_metric (Glyph.bar_chart ++ " Budget Used")%string "90%"]
          ++ after).
Proof.
  eexists. eexists.
  refine (eq_trans
            (proj1 (set_budget_then_dashboard Readers.year_month "2026-02"
                      "2026-02" 1000 Scenarios.no_budget_yet eq_refl)) _).
  vm_compute.
  match goal with
  | |- Ok (?a :: ?b :: ?c :: ?d :: ?e :: ?f :: ?g :: ?rest) = _ =>
      instantiate (2 := [a; b; c; d; e; f]); instantiate (1 := rest)
  end.
  reflexivity.
Defined.

End LookupFacts.

(* ================================================================== *)
(** * Categories and health tags *)
(* ================================================================== *)

Module TagFacts.

Import Store Feedback App Notions.

Lemma mem_In (s : string) (l : list string) : mem s l = true <-> In s l.
Proof.
  unfold mem. rewrite existsb_exists. split.
  - intros (x & Hin & Heq). apply String.eqb_eq in Heq. subst. exact Hin.
  - intros Hin. exists s. split; [exact Hin | apply String.eqb_refl].
Qed.

Lemma not_mem_In (s : string) (l : list string) :
  mem s l = false <-> ~ In s l.
Proof.
  rewrite <- mem_In. destruct (mem s l); split; congruence.
Qed.

(** No category is on both lists. *)
Lemma healthy_not_unhealthy (cat : string) :
  In cat HEALTHY_CATEGORIES -> ~ In cat UNHEALTHY_CATEGORIES.
Proof.
  intros Hh Hu. simpl in Hh, Hu.
  repeat match goal with
         | H : _ \/ _ |- _ => destruct H
         | H : False |- _ => destruct H
         end; subst; discriminate.
Qed.

Lemma get_health_tag_cases (cat : string) :
  (In cat HEALTHY_CATEGORIES /\ get_health_tag cat = "healthy")
  \/ (~ In cat HEALTHY_CATEGORIES /\ In cat UNHEALTHY_CATEGORIES
      /\ get_health_tag cat = "unhealthy")
  \/ (~ In cat HEALTHY_CATEGORIES /\ ~ In cat UNHEALTHY_CATEGORIES
      /\ get_health_tag cat = "neutral").
Proof.
  unfold get_health_tag.
  destruct (mem cat HEALTHY_CATEGORIES) eqn:Hh.
  - left. split; [apply mem_In, Hh | reflexivity].
  - apply not_mem_In in Hh. right.
    destruct (mem cat UNHEALTHY_CATEGORIES) eqn:Hu.
    + left. split; [exact Hh|]. split; [apply mem_In, Hu | reflexivity].
    + apply not_mem_In in Hu. right. split; [exact Hh|].
      split; [exact Hu|]. destruct (cat =? "Food")%string; reflexivity.
Qed.

(** X9.  [get_health_tag] answers "healthy" exactly for the six
    categories of [HEALTHY_CATEGORIES], "unhealthy" exactly for the five of
    [UNHEALTHY_CATEGORIES], and "neutral" for every other text, "Food" and
    "Income" among them; it has no fourth answer. *)
Theorem get_health_tag_classes (cat : string) :
  (get_health_tag cat = "healthy" <-> In cat HEALTHY_CATEGORIES)
  /\ (get_health_tag cat = "unhealthy" <-> In cat UNHEALTHY_CATEGORIES)
  /\ (get_health_tag cat = "neutral" <->
      ~ In cat HEALTHY_CATEGORIES /\ ~ In cat UNHEALTHY_CATEGORIES)
  /\ In (get_health_tag cat) ["healthy"; "unhealthy"; "neutral"]
  /\ get_health_tag "Food" = "neutral"
  /\ get_health_tag "Income" = "neutral".
Proof.
  destruct (get_health_tag_cases cat)
    as [[Hh Htag]|[(Hh & Hu & Htag)|(Hh & Hu & Htag)]];
    rewrite Htag; clear Htag.
  - pose proof (healthy_not_unhealthy cat Hh) as Hnu.
    repeat split; try discriminate; try tauto;
      try (intros; exfalso; tauto); simpl; tauto.
  - repeat split; try discriminate; try tauto;
      try (intros; exfalso; tauto); simpl; tauto.
  - repeat split; try discriminate; try tauto;
      try (intros; exfalso; tauto); simpl; tauto.
Qed.

Lemma selectbox_In {A : Type} (first : A) (options : list A) (choice : nat) :
  In first options -> In (selectbox first options choice) options.
Proof.
  intros Hfirst. unfold selectbox.
  destruct (Nat.lt_ge_cases choice (List.length options)) as [Hlt|Hge].
  - apply nth_In, Hlt.
  - rewrite nth_overflow by exact Hge. exact Hfirst.
Qed.

Lemma ui_step_entered Period_M db db' :
  ui_step Period_M db db' ->
  Forall entered_by_page (expenses db) ->
  Forall entered_by_page (expenses db').
Proof.
  intros Hstep Hall. destruct Hstep.
  - rewrite WriteFacts.Set_Budget_expenses. exact Hall.
  - unfold Add_Income. destruct clicked; [|exact Hall].
    destruct (income_amount <=? 0)%float; [exact Hall|]. simpl.
    apply Forall_app. split; [exact Hall|].
    constructor; [|constructor]. split; [left; reflexivity|].
    exists d. reflexivity.
  - unfold Add_Expense. destruct clicked; [|exact Hall].
    destruct (amount <=? 0)%float; [exact Hall|]. simpl.
    apply Forall_app. split; [exact Hall|].
    constructor; [|constructor]. split; [|exists d; reflexivity].
    right.
    exact (selectbox_In "Food"%string CATEGORY_DISPLAY category_choice
             (or_introl eq_refl)).
  - apply Forall_forall. intros r Hin.
    apply WriteFacts.Delete_Expense_sublist in Hin.
    rewrite Forall_forall in Hall. auto.
  - constructor.
Qed.

(** X10.  In every state the pages reach from a fresh file each stored
    transaction is an income or has one of the twelve categories the Add
    Expense page offers, and its date is the text of a calendar date.  Of
    the unhealthy categories only "Fast Food" is offered: a stored row that
    [get_health_tag] calls unhealthy is a "Fast Food" row, and no "Junk
    Food", "Alcohol", "Smoking" or "Sweets" row is ever stored.  The Add
    Expense page never writes the category "Income". *)
Theorem pages_store_listed_categories
    (Period_M : string -> option string) (db : database) :
  ui_reachable Period_M db ->
  Forall (fun r =>
            (Category r = "Income" \/ In (Category r) CATEGORY_DISPLAY)
            /\ (exists d, Date r = str_date d)
            /\ (get_health_tag (Category r) = "unhealthy" ->
                Category r = "Fast Food"))
    (expenses db)
  /\ (forall choice,
        selectbox "Food" CATEGORY_DISPLAY choice <> "Income").
Proof.
  intros Hreach. split.
  - assert (Hall : Forall entered_by_page (expenses db)).
    { induction Hreach as [|db db' _ IH Hstep]; [constructor|].
      exact (ui_step_entered Period_M db db' Hstep IH). }
    eapply Forall_impl; [|exact Hall].
    intros r [Hcat Hdate]. split; [exact Hcat|]. split; [exact Hdate|].
    intros Htag. destruct Hcat as [Hinc|Hlisted].
    + rewrite Hinc in Htag. discriminate Htag.
    + simpl in Hlisted.
      repeat match goal with
             | H : _ \/ _ |- _ =>
                 destruct H as [H|H];
                 [rewrite <- H in Htag |- *;
                  first [reflexivity | cbv in Htag; discriminate Htag]|]
             end.
      contradiction.
  - intros choice Heq.
    pose proof (selectbox_In "Food"%string CATEGORY_DISPLAY choice
                  (or_introl eq_refl)) as Hin.
    rewrite Heq in Hin. simpl in Hin.
    repeat match goal with
           | H : _ \/ _ |- _ => destruct H as [H|H]
           end; try contradiction; discriminate.
Qed.

(** The salary and the canteen bill of the two entries. *)
Lemma pages_store_witness :
  map Category (expenses Scenarios.entered) = ["Income"; "Food"]
  /\ map Date (expenses Scenarios.entered) = ["2026-02-01"; "2026-02-03"]
  /\ Forall (fun r =>
               (Category r = "Income" \/ In (Category r) CATEGORY_DISPLAY)
               /\ (exists d, Date r = str_date d)
               /\ (get_health_tag (Category r) = "unhealthy" ->
                   Category r = "Fast Food"))
       (expenses Scenarios.entered).
Proof.
  split; [reflexivity|]. split; [reflexivity|].
  exact (proj1 (pages_store_listed_categories Readers.year_month
                  Scenarios.entered WriteFacts.entered_reachable)).
Defined.

End TagFacts.

(* ================================================================== *)
(** * No page divides by zero *)
(* ================================================================== *)

Module SafetyFacts.

Import Store Feedback App FloatFacts FeedbackFacts DashboardFacts.
Local Open Scope float_scope.

Lemma ge0_neq0_gt0 (x : float) :
  (0 <=? x) = true -> (x =? 0) = false -> (0 <? x) = true.
Proof. intros H1 H2. by_sign_cases x. Qed.

Lemma health_feedback_runs (month_df : DataFrame) :
  exists msg, generate_health_feedback month_df = Ok msg.
Proof.
  unfold generate_health_feedback.
  destruct (expense_rows month_df) as [|r rows]; [eexists; reflexivity|].
  rewrite !percent_of_percentage. simpl.
  repeat match goal with
         | |- context [if ?c then _ else _] => destruct c
         end; eexists; reflexivity.
Qed.

Lemma dashboard_runs (today_month : string) (db : database) :
  exists page, Dashboard today_month db = Ok page.
Proof.
  unfold Dashboard. destruct (load_expenses db) as [|r rows];
    [eexists; reflexivity|].
  destruct (budget_logic_runs
              (expense_total (to_numeric_fillna0 (r :: rows)))
              (budget_of_month (load_budget db) today_month))
    as (block & Hblock & _).
  rewrite Hblock. eexists. reflexivity.
Qed.

(** X11.  For every month subset the two feedback functions return a
    message and raise nothing, a month without income or without expenses
    included; and for every database, whatever reads the dates and
    whatever is picked, neither the Smart Insights page nor the dashboard
    raises: each division of the program stands behind a test that its
    divisor is above zero. *)
Theorem no_page_divides_by_zero :
  (forall month_df,
      exists health_fb income_fb,
        generate_health_feedback month_df = Ok health_fb
        /\ generate_income_feedback month_df = Ok income_fb)
  /\ (forall (Timestamp : Type)
             (to_datetime : list string -> list (option Timestamp))
             (to_period_M : Timestamp -> string) choice db,
         exists page,
           Smart_Insights to_datetime to_period_M choice db = Ok page)
  /\ (forall today_month db, exists page, Dashboard today_month db = Ok page)
  /\ truediv 1 0 = Raise ZeroDivisionError.
Proof.
  split; [|split; [|split; [|reflexivity]]].
  - intros month_df.
    destruct (health_feedback_runs month_df) as [h Hh].
    destruct (income_feedback_runs month_df) as [i Hi]. eauto.
  - intros Timestamp to_datetime to_period_M choice db.
    unfold Smart_Insights.
    destruct (load_expenses db) as [|r rows]; [eexists; reflexivity|].
    destruct (dated_frame to_datetime to_period_M (r :: rows)) as [|d ds];
      [eexists; reflexivity|].
    match goal with
    | |- context [month_df ?df ?m] => destruct (month_df df m) as [|x xs]
    end; [eexists; reflexivity|].
    match goal with
    | |- context [generate_health_feedback ?rows] =>
        destruct (health_feedback_runs rows) as [h Hh];
        destruct (income_feedback_runs rows) as [i Hi]
    end.
    rewrite Hh. cbn [bind]. rewrite Hi. cbn [bind]. eexists. reflexivity.
  - apply dashboard_runs.
Qed.

Example hand_edited_negative_expense :
  generate_income_feedback
    [mk_expense_row 1 "2026-02-01" "Food" (-5) "typed into the file"]
  = Ok (low_savings_msg 0).
Proof. vm_compute. reflexivity. Qed.

(** X12.  In a month whose income total and expense total are not below
    zero, [generate_income_feedback] answers by this table: nothing
    recorded when both are zero, expenses without income when only the
    income is zero, income without expenses when only the expenses are
    zero; otherwise the overspend message when the savings are below zero,
    else the low or good savings message by the savings rate, which then is
    [savings / income * 100] and never the fallback zero. *)
Theorem income_feedback_table (month_df : DataFrame) :
  (0 <=? income_total month_df) = true ->
  (0 <=? expense_total month_df) = true ->
  generate_income_feedback month_df
  = Ok (if income_total month_df =? 0
        then if expense_total month_df =? 0
             then no_activity_msg else no_income_msg
        else if expense_total month_df =? 0 then no_spending_msg
        else if savings month_df <? 0 then overspend_msg (savings month_df)
        else if savings_pct month_df <? 10
             then low_savings_msg (savings_pct month_df)
             else good_savings_msg (savings_pct month_df))
  /\ ((income_total month_df =? 0) = false ->
      savings_pct month_df
      = savings month_df / income_total month_df * 100).
Proof.
  intros Hinc Hexp. split.
  - unfold generate_income_feedback. rewrite percent_of_percentage.
    fold (savings month_df). fold (savings_pct month_df).
    destruct (income_total month_df =? 0) eqn:Ei;
      destruct (expense_total month_df =? 0) eqn:Ee; simpl;
      try reflexivity.
    + rewrite (ge0_neq0_gt0 _ Hexp Ee). reflexivity.
    + rewrite (ge0_neq0_gt0 _ Hinc Ei). reflexivity.
    + rewrite (ge0_neq0_gt0 _ Hinc Ei). simpl.
      destruct (savings month_df <? 0); [reflexivity|].
      destruct (savings_pct month_df <? 10); reflexivity.
  - intros Ei. unfold savings_pct, percentage.
    rewrite (ge0_neq0_gt0 _ Hinc Ei). reflexivity.
Qed.

(** Income 1000 against expenses 1200: overspent by 200. *)
Lemma income_feedback_table_witness :
  generate_income_feedback
    [mk_expense_row 1 "2026-02-01" "Income" 1000 "salary";
     mk_expense_row 2 "2026-02-02" "Travel" 1200 "trip"]
  = Ok ("Your expenses exceeded your income by " ++ Glyph.rupee ++ " 200. "
        ++ "Try to cut down non" ++ Glyph.nb_hyphen
        ++ "essential spending or find ways to increase income.")%string.
Proof.
  exact (proj1 (income_feedback_table
                  [mk_expense_row 1 "2026-02-01" "Income" 1000 "salary";
                   mk_expense_row 2 "2026-02-02" "Travel" 1200 "trip"]
                  eq_refl eq_refl)).
Defined.

End SafetyFacts.

(* ================================================================== *)
(** * Month groups and the month picker *)
(* ================================================================== *)

Module GroupFacts.

Import Store Feedback App Notions StoreFacts MonthFacts ListingFacts.
Local Open Scope list_scope.

Lemma nth_combine_In {A B : Type} (l : list A) (l' : list B) (i : nat)
    (a : A) (b : B) :
  nth_error l i = Some a -> nth_error l' i = Some b ->
  In (a, b) (combine l l').
Proof.
  revert l l'. induction i as [|i IH]; intros [|x l] [|y l']; simpl;
    try discriminate.
  - intros [= ->] [= ->]. left. reflexivity.
  - intros Ha Hb. right. apply IH; assumption.
Qed.

Section Parsed.

Context {Timestamp : Type}.
Variable to_datetime : list string -> list (option Timestamp).
Variable to_period_M : Timestamp -> string.

(** Where a row of the dated frame comes from, in full. *)
Lemma dated_frame_source (df : DataFrame) (d : dated_row Timestamp) :
  In d (dated_frame to_datetime to_period_M df) <->
  exists j r ts,
    nth_error df j = Some r
    /\ nth_error (to_datetime (map Date df)) j = Some (Some ts)
    /\ d = dated_as to_period_M r ts.
Proof.
  unfold dated_frame. rewrite in_flat_map. split.
  - intros ([r [ts|]] & Hcell & Hkeep); simpl in Hkeep; [|tauto].
    destruct Hkeep as [<-|[]].
    destruct (combine_In_nth _ _ _ _ Hcell) as (j & Hj & Hj').
    exists j, r, ts. auto.
  - intros (j & r & ts & Hj & Hj' & ->).
    exists (r, Some ts). split; [eapply nth_combine_In; eassumption|].
    left. reflexivity.
Qed.

End Parsed.

(** X13.  Whatever reads the dates: a stored transaction whose date cell
    is read as a timestamp (ids being a primary key) is in the subset of
    the month of that timestamp, with its amount cleaned and its other
    columns as stored, and in the subset of no other month; nothing else
    in any subset carries its id. *)
Theorem parsed_date_in_its_month
    (Timestamp : Type)
    (to_datetime : list string -> list (option Timestamp))
    (to_period_M : Timestamp -> string)
    (db : database) (i : nat) (r : expense_row) (ts : Timestamp) :
  NoDup (map ID (expenses db)) ->
  nth_error (load_expenses db) i = Some r ->
  nth_error (to_datetime (map Date (load_expenses db))) i = Some (Some ts) ->
  In (dated_as to_period_M r ts)
    (month_group to_datetime to_period_M db (to_period_M ts))
  /\ (forall m d,
        In d (month_group to_datetime to_period_M db m) ->
        ID (row d) = ID r ->
        m = to_period_M ts /\ d = dated_as to_period_M r ts).
Proof.
  intros Hkey Hrow Hts. split.
  - unfold month_group, month_df. apply filter_In. split.
    + apply dated_frame_source. exists i, r, ts. auto.
    + simpl. apply String.eqb_refl.
  - intros m d Hin Hid.
    unfold month_group, month_df in Hin. apply filter_In in Hin as [Hin Hm].
    apply String.eqb_eq in Hm.
    apply dated_frame_source in Hin as (j & r' & ts' & Hj & Hts' & ->).
    simpl in Hid, Hm.
    assert (j = i).
    { apply (same_id_same_place (load_expenses db) j i r' r);
        [apply load_expenses_ids, Hkey | exact Hj | exact Hrow | exact Hid]. }
    subst j. rewrite Hrow in Hj. injection Hj as <-.
    rewrite Hts in Hts'. injection Hts' as <-.
    split; [symmetry; exact Hm | reflexivity].
Qed.

(** Row 1 of the hand-edited store is of February 2026. *)
Lemma parsed_date_witness :
  In (dated_as Readers.period_M
        (mk_expense_row 1 "2026-02-01" "Food" 300 "canteen")
        (mk_date 2026 2 1))
    (month_group Readers.iso_dates Readers.period_M Scenarios.edited_by_hand
       "2026-02").
Proof.
  refine (proj1 (parsed_date_in_its_month Store.date Readers.iso_dates
                   Readers.period_M Scenarios.edited_by_hand 0
                   (mk_expense_row 1 "2026-02-01" "Food" 300 "canteen")
                   (mk_date 2026 2 1) _ eq_refl eq_refl)).
  cbv. repeat constructor; simpl; intuition discriminate.
Defined.

(** ** The month picker *)

Lemma desc_newest (a b : string) :
  desc a b = true <-> (newest_first a b \/ a = b).
Proof.
  unfold desc, newest_first.
  destruct (String.compare a b) eqn:Hc.
  - apply String.compare_eq_iff in Hc. tauto.
  - split; [discriminate|]. intros [H|H].
    + pose proof (string_compare_trans _ _ _ Hc H) as Hbad.
      rewrite string_compare_refl in Hbad. discriminate.
    + rewrite H, string_compare_refl in Hc. discriminate.
  - split; [|reflexivity]. intros _. left. apply string_compare_flip, Hc.
Qed.

Lemma desc_total (a b : string) :
  desc a b = false -> (newest_first b a \/ b = a).
Proof.
  unfold desc, newest_first.
  destruct (String.compare a b) eqn:Hc; try discriminate. auto.
Qed.

Lemma newest_or_same_trans (a b c : string) :
  (newest_first a b \/ a = b) -> (newest_first b c \/ b = c) ->
  (newest_first a c \/ a = c).
Proof.
  unfold newest_first. intros [H1|E1] [H2|E2].
  - left. eapply string_compare_trans; eassumption.
  - left. rewrite <- E2. exact H1.
  - left. rewrite E1. exact H2.
  - right. congruence.
Qed.

Lemma strictly_newest_first (l : list string) :
  NoDup l ->
  StronglySorted (fun a b => newest_first a b \/ a = b) l ->
  StronglySorted newest_first l.
Proof.
  induction l as [|a l IH]; intros Hnd Hs; [constructor|].
  inversion Hnd as [|? ? Hfresh Hnd']; subst.
  inversion Hs as [|? ? Hs' Hall]; subst.
  constructor; [auto|].
  apply Forall_forall. intros b Hin. rewrite Forall_forall in Hall.
  destruct (Hall b Hin) as [Hlt|Heq]; [exact Hlt|].
  elim Hfresh. rewrite Heq. exact Hin.
Qed.

Section Picker.

Context {Timestamp : Type}.

Lemma month_options_In (df : list (dated_row Timestamp)) (m : string) :
  In m (month_options df) <-> exists d, In d df /\ month_key d = m.
Proof.
  unfold month_options. rewrite order_by_In, nodup_In, in_map_iff.
  split; intros (d & H1 & H2); exists d; auto.
Qed.

(** X14.  When at least one row has a date, the month picker offers each
    month of a dated row once, the newest month first; what it returns,
    whatever was picked, is one of these months, and the rows of the
    picked month are never none. *)
Theorem picked_month_has_rows (df : list (dated_row Timestamp))
    (choice : nat) :
  df <> [] ->
  (forall m, In m (month_options df) <->
             exists d, In d df /\ month_key d = m)
  /\ StronglySorted newest_first (month_options df)
  /\ In (selectbox (hd ""%string (month_options df)) (month_options df)
           choice)
       (month_options df)
  /\ month_df df
       (selectbox (hd ""%string (month_options df)) (month_options df)
          choice) <> [].
Proof.
  intros Hsome.
  assert (Hpicked : In (selectbox (hd ""%string (month_options df))
                          (month_options df) choice) (month_options df)).
  { apply TagFacts.selectbox_In.
    destruct df as [|d df]; [congruence|].
    assert (Hin : In (month_key d) (month_options (d :: df))).
    { apply month_options_In. exists d. split; [left|]; reflexivity. }
    destruct (month_options (d :: df)) as [|m ms]; [destruct Hin|].
    left. reflexivity. }
  split; [apply month_options_In|]. split; [|split; [exact Hpicked|]].
  - apply strictly_newest_first.
    + eapply Permutation_NoDup;
        [apply Permutation_sym, order_by_perm | apply NoDup_nodup].
    + apply (order_by_sorted desc (fun a b => newest_first a b \/ a = b));
        [apply desc_newest | apply desc_total | apply newest_or_same_trans].
  - apply month_options_In in Hpicked as (d & Hin & Hm).
    intros Hnone.
    assert (Hd : In d (month_df df
                         (selectbox (hd ""%string (month_options df))
                            (month_options df) choice))).
    { apply filter_In. split; [exact Hin | apply String.eqb_eq, Hm]. }
    rewrite Hnone in Hd. destruct Hd.
Qed.

End Picker.

(** March is offered before February; a choice beyond the options falls
    back on March. *)
Lemma picked_month_witness :
  month_options
    (dated_frame Readers.iso_dates Readers.period_M
       (load_expenses Scenarios.two_month_store))
  = ["2026-03"; "2026-02"]%string
  /\ month_df
       (dated_frame Readers.iso_dates Readers.period_M
          (load_expenses Scenarios.two_month_store))
       (selectbox
          (hd ""%string
             (month_options
                (dated_frame Readers.iso_dates Readers.period_M
                   (load_expenses Scenarios.two_month_store))))
          (month_options
             (dated_frame Readers.iso_dates Readers.period_M
                (load_expenses Scenarios.two_month_store)))
          5) <> [].
Proof.
  split; [reflexivity|].
  refine (proj2 (proj2 (proj2
            (picked_month_has_rows
               (dated_frame Readers.iso_dates Readers.period_M
                  (load_expenses Scenarios.two_month_store)) 5 _)))).
  cbv. discriminate.
Defined.

Lemma health_feedback_cases (month_df : DataFrame) (msg : string) :
  generate_health_feedback month_df = Ok msg ->
  msg = no_expenses_msg \/ (exists u, msg = cautionary_msg u)
  \/ (exists h, msg = encouraging_msg h) \/ msg = mixed_msg.
Proof.
  unfold generate_health_feedback.
  destruct (expense_rows month_df) as [|r rows];
    [intros [= <-]; left; reflexivity|].
  rewrite !FeedbackFacts.percent_of_percentage. cbn [bind].
  repeat match goal with
         | |- context [if ?c then _ else _] => destruct c
         end; intros [= <-]; eauto.
Qed.

Lemma health_feedback_is_not_the_note (month_df : DataFrame) (msg : string) :
  generate_health_feedback month_df = Ok msg ->
  msg <> "No records for this month."%string.
Proof.
  intros Hrun.
  destruct (health_feedback_cases month_df msg Hrun)
    as [ -> | [[u -> ] | [[h -> ] | -> ]]]; discriminate.
Qed.

(** X15.  The note "No records for this month." is never shown: neither
    by the Statistics page nor by the Smart Insights page, for any
    database, any reader of dates and any pick, since the picked month is
    always a month of some dated row. *)
Theorem month_pages_never_show_empty_month
    (Timestamp : Type)
    (to_datetime : list string -> list (option Timestamp))
    (to_period_M : Timestamp -> string)
    (choice : nat) (db : database) :
  ~ In (st_info "No records for this month.")
      (Statistics to_datetime to_period_M choice db)
  /\ (forall page,
        Smart_Insights to_datetime to_period_M choice db = Ok page ->
        ~ In (st_info "No records for this month.") page).
Proof.
  split.
  - unfold Statistics.
    destruct (load_expenses db) as [|r rows];
      [simpl; intuition discriminate|].
    destruct (dated_frame to_datetime to_period_M (r :: rows))
      as [|d ds] eqn:Hdf; [simpl; intuition discriminate|].
    pose proof (picked_month_has_rows (d :: ds) choice ltac:(discriminate))
      as (_ & _ & _ & Hrows).
    destruct (month_df (d :: ds) _) as [|x xs]; [congruence|].
    unfold category_chart.
    destruct (expense_rows (map row (x :: xs)));
      simpl; intuition discriminate.
  - intros page. unfold Smart_Insights.
    destruct (load_expenses db) as [|r rows];
      [intros [= <-]; simpl; intuition discriminate|].
    destruct (dated_frame to_datetime to_period_M (r :: rows))
      as [|d ds] eqn:Hdf; [intros [= <-]; simpl; intuition discriminate|].
    pose proof (picked_month_has_rows (d :: ds) choice ltac:(discriminate))
      as (_ & _ & _ & Hrows).
    destruct (month_df (d :: ds) _) as [|x xs]; [congruence|].
    destruct (generate_health_feedback (map row (x :: xs)))
      as [health_fb|e] eqn:Hh; cbn [bind]; [|discriminate].
    destruct (generate_income_feedback (map row (x :: xs)))
      as [income_fb|e] eqn:Hi; cbn [bind]; [|discriminate].
    pose proof (health_feedback_is_not_the_note _ _ Hh) as Hnote.
    intros [= <-]. simpl.
    match goal with
    | |- context [match ?e with [] => _ | _ :: _ => _ end] => destruct e
    end; simpl; intuition (try discriminate; congruence).
Qed.

End GroupFacts.

(* ================================================================== *)
(** * Cleaning the amounts *)
(* ================================================================== *)

Module CleanFacts.

Import Store Feedback.
Local Open Scope float_scope.

Lemma fillna0_not_nan (a : float) : is_nan (fillna0 a) = false.
Proof.
  unfold fillna0. destruct (is_nan a) eqn:E; [reflexivity | exact E].
Qed.

Lemma fillna0_idem (a : float) : fillna0 (fillna0 a) = fillna0 a.
Proof. unfold fillna0 at 1. rewrite fillna0_not_nan. reflexivity. Qed.

(** The sum sees its terms only through [fillna0]. *)
Lemma Series_sum_terms (s s' : list float) :
  map fillna0 s = map fillna0 s' -> Series_sum s = Series_sum s'.
Proof.
  intros H. unfold Series_sum.
  rewrite <- (length_map fillna0 s), <- (length_map fillna0 s'), H.
  reflexivity.
Qed.

(** A sum over the rows that a test on the category selects does not see
    the cleaning. *)
Lemma selected_sum_cleaned (q : expense_row -> bool) (df : DataFrame) :
  (forall r a, q (mk_expense_row (ID r) (Date r) (Category r) a
                    (Description r)) = q r) ->
  Series_sum (map Amount (filter q (to_numeric_fillna0 df)))
  = Series_sum (map Amount (filter q df)).
Proof.
  intros Hq. apply Series_sum_terms.
  induction df as [|r df IH]; [reflexivity|].
  simpl. rewrite Hq. destruct (q r); simpl; [|apply IH].
  rewrite fillna0_idem, IH. reflexivity.
Qed.

Lemma expense_rows_cleaned_tagged (tag : string) (df : DataFrame) :
  Series_sum (map Amount (tagged tag (expense_rows (to_numeric_fillna0 df))))
  = Series_sum (map Amount (tagged tag (expense_rows df))).
Proof.
  apply Series_sum_terms. unfold tagged, expense_rows, is_income.
  induction df as [|r df IH]; [reflexivity|].
  simpl. destruct (Category r =? "Income")%string; simpl; [apply IH|].
  destruct (get_health_tag (Category r) =? tag)%string; simpl; [|apply IH].
  rewrite fillna0_idem, IH. reflexivity.
Qed.

Lemma expense_rows_cleaned_empty (df : DataFrame) :
  expense_rows (to_numeric_fillna0 df) = [] <-> expense_rows df = [].
Proof.
  unfold expense_rows, is_income.
  induction df as [|r df IH]; simpl; [tauto|].
  destruct (Category r =? "Income")%string; simpl; [exact IH|].
  split; discriminate.
Qed.

(** X16.  [pd.to_numeric(...).fillna(0)] leaves no amount that is not a
    number and touches no other column; it changes no total, since the
    sums count a missing amount as zero themselves, so both feedback
    functions answer the same on the cleaned frame as on the raw one; and
    cleaning twice is cleaning once. *)
Theorem cleaning_changes_no_total (df : DataFrame) :
  Forall (fun r => is_nan (Amount r) = false) (to_numeric_fillna0 df)
  /\ map (fun r => (ID r, Date r, Category r, Description r))
       (to_numeric_fillna0 df)
     = map (fun r => (ID r, Date r, Category r, Description r)) df
  /\ income_total (to_numeric_fillna0 df) = income_total df
  /\ expense_total (to_numeric_fillna0 df) = expense_total df
  /\ generate_income_feedback (to_numeric_fillna0 df)
     = generate_income_feedback df
  /\ generate_health_feedback (to_numeric_fillna0 df)
     = generate_health_feedback df
  /\ to_numeric_fillna0 (to_numeric_fillna0 df) = to_numeric_fillna0 df.
Proof.
  assert (Hinc : income_total (to_numeric_fillna0 df) = income_total df)
    by (apply selected_sum_cleaned; reflexivity).
  assert (Hexp : expense_total (to_numeric_fillna0 df) = expense_total df)
    by (apply selected_sum_cleaned; reflexivity).
  split; [|split; [|split; [exact Hinc|split; [exact Hexp|split;
    [|split]]]]].
  - unfold to_numeric_fillna0. apply Forall_map, Forall_forall.
    intros r _. simpl. apply fillna0_not_nan.
  - unfold to_numeric_fillna0. rewrite map_map. reflexivity.
  - unfold generate_income_feedback. rewrite Hinc, Hexp. reflexivity.
  - assert (Hh : healthy_spent (to_numeric_fillna0 df) = healthy_spent df)
      by apply expense_rows_cleaned_tagged.
    assert (Hu : unhealthy_spent (to_numeric_fillna0 df)
                 = unhealthy_spent df)
      by apply expense_rows_cleaned_tagged.
    assert (Ht : total_spent (to_numeric_fillna0 df) = total_spent df)
      by exact Hexp.
    unfold generate_health_feedback. rewrite Hh, Hu, Ht.
    destruct (expense_rows df) as [|r rows] eqn:E.
    + apply (proj2 (expense_rows_cleaned_empty df)) in E. rewrite E.
      reflexivity.
    + destruct (expense_rows (to_numeric_fillna0 df)) as [|r' rows'] eqn:E';
        [|reflexivity].
      apply (proj1 (expense_rows_cleaned_empty df)) in E'. congruence.
  - unfold to_numeric_fillna0. rewrite map_map. apply map_ext.
    intros r. simpl. rewrite fillna0_idem. reflexivity.
Qed.

End CleanFacts.

(* ================================================================== *)
(** * Entering a transaction and taking it back *)
(* ================================================================== *)

Module UndoFacts.

Import Store Feedback App Notions StoreFacts DeleteFacts.
Local Open Scope list_scope.

Lemma offered_category_is_no_income (category_choice : nat) :
  selectbox "Food"%string CATEGORY_DISPLAY category_choice
  <> "Income"%string.
Proof.
  intros Heq.
  pose proof (TagFacts.selectbox_In "Food"%string CATEGORY_DISPLAY
                category_choice (or_introl eq_refl)) as Hin.
  rewrite Heq in Hin. simpl in Hin.
  repeat match goal with
         | H : _ \/ _ |- _ => destruct H as [H|H]
         end; try contradiction; discriminate.
Qed.

Lemma delete_inserted date_value category amount description db :
  filter
    (fun r =>
       negb (ID r =? ID (inserted_row date_value category amount
                           description db))%Z)
    (expenses (save_expense date_value category amount description db))
  = expenses db.
Proof.
  simpl. rewrite filter_app. simpl. rewrite Z.eqb_refl. simpl.
  rewrite app_nil_r. apply filter_fresh_id.
  rewrite in_map_iff. intros (r & Hid & Hin).
  apply max_rowid_bound in Hin. lia.
Qed.

(** X17.  An expense that the Add Expense page has saved is among the
    ids the Delete Expense page offers, and picking it and pressing the
    button gives back the table of transactions as it was before the
    expense was entered.  An income that the Add Income page has saved is
    not among the ids the Delete Expense page offers. *)
Theorem entered_expense_can_be_taken_back
    (d : date) (category_choice : nat) (amount : float)
    (description : string) (db : database) :
  (amount <=? 0)%float = false ->
  let category := selectbox "Food"%string CATEGORY_DISPLAY category_choice in
  let db1 := snd (Add_Expense d category_choice amount description true db) in
  let db2 := snd (Add_Income d amount description true db) in
  In (ID (inserted_row d category amount description db)) (row_ids db1)
  /\ (exists choice,
         expenses (snd (Delete_Expense choice true db1)) = expenses db)
  /\ ~ In (ID (inserted_row d "Income" amount description db)) (row_ids db2).
Proof.
  intros Hpos category db1 db2.
  assert (Hdb1 : db1 = save_expense d category amount description db).
  { unfold db1, Add_Expense. rewrite Hpos. reflexivity. }
  assert (Hdb2 : db2 = save_expense d "Income" amount description db).
  { unfold db2, Add_Income. rewrite Hpos. reflexivity. }
  assert (Hoffered :
            In (ID (inserted_row d category amount description db))
              (row_ids db1)).
  { apply row_ids_spec.
    exists (inserted_row d category amount description db).
    split; [|split; [reflexivity|apply offered_category_is_no_income]].
    rewrite Hdb1. simpl. apply in_app_iff. right. left. reflexivity. }
  split; [exact Hoffered|]. split.
  - destruct (In_nth _ _ 0%Z Hoffered) as (choice & Hlt & Hnth).
    exists choice. unfold Delete_Expense.
    destruct (expense_rows (load_expenses db1)) as [|first rest] eqn:Hrows.
    + unfold row_ids in Hlt. rewrite Hrows in Hlt. simpl in Hlt. lia.
    + unfold selectbox. rewrite (nth_indep _ (ID first) 0%Z Hlt), Hnth.
      cbn [snd delete_expense_by_id expenses]. rewrite Hdb1.
      apply delete_inserted.
  - intros Hin. apply row_ids_spec in Hin as (r & Hr & Hid & Hcat).
    rewrite Hdb2 in Hr. simpl in Hr. apply in_app_iff in Hr.
    destruct Hr as [Hr|[<-|[]]]; [|apply Hcat; reflexivity].
    apply max_rowid_bound in Hr. simpl in Hid. lia.
Qed.

(** A bus fare of 60 is entered into the store of four rows, offered as
    the third option and taken back. *)
Lemma entered_expense_witness :
  row_ids (snd (Add_Expense (mk_date 2026 2 10) 8 60 "bus" true
                  Scenarios.four_rows))
  = [2; 3; 5]%Z
  /\ In 5%Z
       (row_ids (snd (Add_Expense (mk_date 2026 2 10) 8 60 "bus" true
                        Scenarios.four_rows)))
  /\ expenses
       (snd (Delete_Expense 2 true
               (snd (Add_Expense (mk_date 2026 2 10) 8 60 "bus" true
                       Scenarios.four_rows))))
     = expenses Scenarios.four_rows.
Proof.
  split; [reflexivity|]. split; [|reflexivity].
  exact (proj1 (entered_expense_can_be_taken_back (mk_date 2026 2 10) 8 60
                  "bus" Scenarios.four_rows eq_refl)).
Defined.

End UndoFacts.
